(** * buildbot-slack: the Slack status reporter

    A shallow embedding of [buildbot_slack/reporter.py] (class
    [SlackStatusPush]) and the properties of its notification pipeline:
    status tables, message rendering, payload assembly and the
    per-sourcestamp delivery loop.

    Python dictionaries with a fixed set of keys (the build record, a
    sourcestamp, an attachment, a field) are records; the outbound payload
    [postData], whose keys are added conditionally, is a [gmap] from key to
    value.  Calls that leave the reporter (build enrichment, the
    responsible-users lookup, the HTTP client, the logger) are explicit
    events on a trace, answered by an environment that may depend on
    everything that happened before. *)

From stdpp Require Import gmap strings list fin_maps pretty.

Local Open Scope string_scope.
Local Open Scope Z_scope.
Local Open Scope list_scope.

(** ** Python values and their truthiness *)

(** [bool(s)] for a [str]. *)
Definition truthy_text (s : string) : bool := negb (String.eqb s "").

(** [bool(x)] for a value that is [None] or a [str]. *)
Definition truthy_str (o : option string) : bool :=
  match o with
  | None => false
  | Some s => truthy_text s
  end.

(** [bool(x)] for a value that is [None] or an [int]. *)
Definition truthy_int (o : option Z) : bool :=
  match o with
  | None => false
  | Some n => negb (n =? 0)
  end.

(** [bool(l)] for a list. *)
Definition truthy_list {A} (l : list A) : bool :=
  match l with
  | [] => false
  | _ :: _ => true
  end.

(** [str(x)] as [str.format] and [%s] render a value that is [None] or a
    [str]. *)
Definition str_of_optstr (o : option string) : string :=
  match o with
  | None => "None"
  | Some s => s
  end.

(** [str(x)] for a value that is [None] or an [int]. *)
Definition str_of_optint (o : option Z) : string :=
  match o with
  | None => "None"
  | Some n => pretty n
  end.

(** [sep.join(l)]. *)
Definition join (sep : string) (l : list string) : string :=
  String.concat sep l.

(** [s.rstrip(c)] for a one-character argument. *)
Fixpoint rstrip (c : Ascii.ascii) (s : string) : string :=
  match s with
  | EmptyString => EmptyString
  | String a s' =>
      match rstrip c s' with
      | EmptyString => if Ascii.eqb a c then EmptyString else String a EmptyString
      | r => String a r
      end
  end.

(** [d.get(k, dflt)]. *)
Definition dict_get {V} (d : gmap string V) (k : string) (dflt : V) : V :=
  default dflt (d !! k).

(** [d.update(e)]: the entries of [e] win. *)
Definition dict_update {V} (d e : gmap string V) : gmap string V := e ∪ d.

(** [not d] for a dictionary. *)
Definition dict_is_empty {V} (d : gmap string V) : bool :=
  Nat.eqb (size d) 0.

(** ** Result codes (buildbot.process.results) *)

(** Modelled from the spec: the result-code constants and [statusToString]
    are imported from the host framework (reporter.py:12-18 and 25) and are
    not among the sources.  The spec names the result codes (success,
    warnings, failure, skipped, exception, retry, cancelled) and calls the
    image of a code its human-readable result; the numbering, and the two
    strings for an absent and an out-of-range code, are the framework's.
    This one is the code of "success". *)
Definition SUCCESS : Z := 0.

(** Modelled from the spec: the code of "warnings". *)
Definition WARNINGS : Z := 1.

(** Modelled from the spec: the code of "failure". *)
Definition FAILURE : Z := 2.

(** Modelled from the spec: the code of "skipped". *)
Definition SKIPPED : Z := 3.

(** Modelled from the spec: the code of "exception". *)
Definition EXCEPTION : Z := 4.

(** Modelled from the spec: the code of "retry". *)
Definition RETRY : Z := 5.

(** Modelled from the spec: the code of "cancelled". *)
Definition CANCELLED : Z := 6.

(** Modelled from the spec: the framework's list of result strings,
    indexed by result code. *)
Definition Results : list string :=
  ["success"; "warnings"; "failure"; "skipped"; "exception"; "retry";
   "cancelled"].

(** Modelled from the spec: the framework's [statusToString(status)],
    the human-readable result of a result code; "not finished" for
    [None] and "Invalid status" outside the list. *)
Definition statusToString (status : option Z) : string :=
  match status with
  | None => "not finished"
  | Some s =>
      if (s <? 0) || (Z.of_nat (length Results) <=? s) then "Invalid status"
      else default "Invalid status" (Results !! Z.to_nat s)
  end.

(** ** Status tables (reporter.py:31-48) *)

Definition STATUS_EMOJIS : gmap string string :=
  list_to_map
    [("success", ":sunglassses:");
     ("warnings", ":meow_wow:");
     ("failure", ":skull:");
     ("skipped", ":slam:");
     ("exception", ":skull:");
     ("retry", ":facepalm:");
     ("cancelled", ":slam:")].

Definition STATUS_COLORS : gmap string string :=
  list_to_map
    [("success", "#36a64f");
     ("warnings", "#fc8c03");
     ("failure", "#fc0303");
     ("skipped", "#fc8c03");
     ("exception", "#fc0303");
     ("retry", "#fc8c03");
     ("cancelled", "#fc8c03")].

(** [STATUS_COLORS.get(statusToString(build["results"]), "")]
    (reporter.py:189). *)
Definition status_color (results : option Z) : string :=
  dict_get STATUS_COLORS (statusToString results) "".

(** [STATUS_EMOJIS.get(statusToString(build["results"]), ":facepalm:")]
    (reporter.py:212-214). *)
Definition status_emoji (results : option Z) : string :=
  dict_get STATUS_EMOJIS (statusToString results) ":facepalm:".

(** ** The records handed over by the controller *)

Record SourceStamp := {
  revision : option string;
  branch : option string;
  repository : string;
  project : string;
}.

Record BuildSet := {
  sourcestamps : list SourceStamp;
  parent_buildid : option Z;
  parent_relationship : option string;
}.

Record Builder := { name : string }.

Record Build := {
  buildid : Z;
  builder : Builder;
  buildset : BuildSet;
  complete : bool;
  results : option Z;
  url : string;
}.

Record Report := { builds : list Build }.

(** ** What the reporter produces *)

Module Field.
Record t := { title : string; value : string; short : bool }.
End Field.

Module Attachment.
Record t := {
  title : string;
  title_link : string;
  fallback : string;
  text : string;
  color : string;
  mrkdwn_in : list string;
  fields : list Field.t;
}.
End Attachment.

(** A value stored in [postData]: a string, or the attachment list. *)
Inductive PostValue :=
| PStr (s : string)
| PAttachments (l : list Attachment.t).

(** ** Configuration (reporter.py:91-128) *)

(** The attributes [reconfigService] leaves on [self] and the pipeline
    reads. *)
Record SlackStatusPush := {
  baseUrl : option string;
  endpoint : string;
  channel : option string;
  username : option string;
  attachments : bool;
}.

(** [reconfigService(endpoint, channel, host_url, username, attachments)];
    [self.baseUrl = host_url and host_url.rstrip("/")]. *)
Definition reconfigService (endpoint_ : string)
    (channel_ host_url_ username_ : option string) (attachments_ : bool)
    : SlackStatusPush :=
  {| baseUrl := if truthy_str host_url_
                then rstrip (Ascii.ascii_of_nat 47) <$> host_url_
                else host_url_;
     endpoint := endpoint_;
     channel := channel_;
     username := username_;
     attachments := attachments_ |}.

(** ** Primary text (reporter.py:219-225) *)

Definition getMessage (build : Build) : string :=
  let event_messages : list (bool * string) :=
    [(false, "Buildbot started build " +:+ name (builder build));
     (true, "Buildbot finished build " +:+ name (builder build)
            +:+ " with result: " +:+ statusToString (results build))] in
  default ""
    (snd <$> List.find (fun kv => Bool.eqb (fst kv) (complete build))
                       event_messages).

(** ** Exceptions, results and the trace of outside calls *)

(** The exceptions of the model are instances of Python's [Exception]:
    [IndexError] from indexing an empty list, and whatever a collaborator
    raises, kept with its detail.  Process-level signals, which
    [except Exception] lets through, are outside the model. *)
Inductive PyExc :=
| IndexError
| Error (detail : string).

Inductive Result (A : Type) :=
| Ok (a : A)
| Raise (e : PyExc).
Arguments Ok {A} a.
Arguments Raise {A} e.

(** An HTTP response: its status code, and what [response.content()]
    gives once it is asked for. *)
Record Response := { code : Z; content : Result string }.

(** The four log lines of [sendMessage], with their keyword arguments. *)
Inductive LogRecord :=
| info_no_revision
| info_posting (url_ : string)
| error_upload (code_ : Z) (content_ : string)
| error_send (repo : string) (sha : option string) (error : PyExc).

(** Every call that leaves the reporter, in the order it is made. *)
Inductive Event :=
| CallGetDetails (build : Build)
| CallGetResponsibleUsers (buildid_ : Z)
| CallPost (ep : string) (json : gmap string PostValue)
| CallContent (code_ : Z)
| Log (r : LogRecord).

(** The collaborators.  Each answer may depend on the whole history, so
    that the same request can succeed once and fail the next time.
    [getDetailsForBuild] updates the build record in place; its answer is
    the record after the update. *)
Record Env := {
  getDetailsForBuild : list Event -> Build -> Result Build;
  getResponsibleUsersForBuild : list Event -> Z -> Result (list string);
  http_post : list Event -> string -> gmap string PostValue -> Result Response;
}.

(** A computation: from the trace so far to a result and the extended
    trace.  A raised exception stands for the failed [Deferred] of an
    [inlineCallbacks] generator. *)
Definition M (A : Type) : Type := list Event -> Result A * list Event.

Definition ret {A} (a : A) : M A := fun tr => (Ok a, tr).

Definition raise {A} (e : PyExc) : M A := fun tr => (Raise e, tr).

Definition bind {A B} (m : M A) (k : A -> M B) : M B :=
  fun tr =>
    match m tr with
    | (Ok a, tr') => k a tr'
    | (Raise e, tr') => (Raise e, tr')
    end.

Notation "x <- m ;; k" := (bind m (fun x => k))
  (at level 100, m at next level, right associativity).
Notation "m ;;; k" := (bind m (fun _ => k))
  (at level 100, right associativity).

(** [try: body / except Exception as e: handler(e)]. *)
Definition try_except {A} (body : M A) (handler : PyExc -> M A) : M A :=
  fun tr =>
    match body tr with
    | (Ok a, tr') => (Ok a, tr')
    | (Raise e, tr') => handler e tr'
    end.

(** [for x in l: body(x)]. *)
Fixpoint for_each {X} (body : X -> M unit) (l : list X) : M unit :=
  match l with
  | [] => ret tt
  | x :: rest => body x ;;; for_each body rest
  end.

(** [l[0]]. *)
Definition index0 {A} (l : list A) : M A :=
  match l with
  | [] => raise IndexError
  | x :: _ => ret x
  end.

(** An outside call: ask the environment, then put the call on the
    trace. *)
Definition call {A} (answer : list Event -> Result A) (ev : Event) : M A :=
  fun tr => (answer tr, tr ++ [ev]).

Definition log (r : LogRecord) : M unit := fun tr => (Ok tt, tr ++ [Log r]).

(** [response.content()]. *)
Definition call_content (response : Response) : M string :=
  call (fun _ => content response) (CallContent (code response)).

(** ** The reporter's methods *)

Section Reporter.

Context (env : Env) (self : SlackStatusPush).

(** [utils.getDetailsForBuild(self.master, build, ...)]. *)
Definition call_getDetailsForBuild (build : Build) : M Build :=
  call (fun tr => getDetailsForBuild env tr build) (CallGetDetails build).

(** [utils.getResponsibleUsersForBuild(self.master, buildid)]. *)
Definition call_getResponsibleUsersForBuild (id : Z) : M (list string) :=
  call (fun tr => getResponsibleUsersForBuild env tr id)
       (CallGetResponsibleUsers id).

(** [self._http.post(ep, json=postData)]. *)
Definition call_post (ep : string) (postData : gmap string PostValue) : M Response :=
  call (fun tr => http_post env tr ep postData) (CallPost ep postData).

(** [bool(build["buildset"]["parent_buildid"])] (reporter.py:151). *)
Definition sub_build (build : Build) : bool :=
  truthy_int (parent_buildid (buildset build)).

(** The title of one attachment (reporter.py:147-156). *)
Definition attachment_title (build : Build) (sourcestamp : SourceStamp) : string :=
  let sha := revision sourcestamp in
  let title := "Build #" +:+ pretty (buildid build) in
  let title :=
    if truthy_text (project sourcestamp)
    then title +:+ " for " +:+ project sourcestamp +:+ " " +:+ str_of_optstr sha
    else title in
  if sub_build build
  then title +:+ " " +:+ str_of_optstr (parent_relationship (buildset build))
             +:+ ": #" +:+ str_of_optint (parent_buildid (buildset build))
  else title.

(** The field list of one attachment (reporter.py:158-180). *)
Definition attachment_fields (build : Build) (sourcestamp : SourceStamp)
    : M (list Field.t) :=
  let fields := [] in
  if negb (sub_build build) then
    let branch_name := branch sourcestamp in
    let fields :=
      if truthy_str branch_name
      then fields ++ [ {| Field.title := "Branch";
                          Field.value := str_of_optstr branch_name;
                          Field.short := true |} ]
      else fields in
    let repositories := repository sourcestamp in
    let fields :=
      if truthy_text repositories
      then fields ++ [ {| Field.title := "Repository";
                          Field.value := repositories;
                          Field.short := true |} ]
      else fields in
    responsible_users <- call_getResponsibleUsersForBuild (buildid build) ;;
    ret (if truthy_list responsible_users
         then fields ++ [ {| Field.title := "Commiters";
                             Field.value := join ", " responsible_users;
                             Field.short := true |} ]
         else fields)
  else ret fields.

(** One turn of the loop of [getAttachments] (reporter.py:144-193): the
    attachment of one sourcestamp. *)
Definition attachment_for (build : Build) (sourcestamp : SourceStamp) : M Attachment.t :=
  let title := attachment_title build sourcestamp in
  fields <- attachment_fields build sourcestamp ;;
  ret {| Attachment.title := title;
         Attachment.title_link := url build;
         Attachment.fallback := title +:+ ": <" +:+ url build +:+ ">";
         Attachment.text :=
           "Status: *" +:+ statusToString (results build) +:+ "*";
         Attachment.color := status_color (results build);
         Attachment.mrkdwn_in := ["text"; "title"; "fallback"]%string;
         Attachment.fields := fields |}.

(** The loop of [getAttachments], appending to [attachments]. *)
Fixpoint getAttachments_loop (build : Build) (todo : list SourceStamp)
    (attachments_ : list Attachment.t) : M (list Attachment.t) :=
  match todo with
  | [] => ret attachments_
  | sourcestamp :: rest =>
      a <- attachment_for build sourcestamp ;;
      getAttachments_loop build rest (attachments_ ++ [a])
  end.

Definition getAttachments (build : Build) : M (list Attachment.t) :=
  getAttachments_loop build (sourcestamps (buildset build)) [].

(** [getExtraParams] (reporter.py:235-236). *)
Definition getExtraParams (build : Build) : gmap string PostValue := ∅.

(** [getBuildDetailsAndSendMessage] (reporter.py:196-217).  The build
    record is updated in place by the enrichment call and [sendMessage]
    reads it again afterwards, so the updated record is returned next to
    the payload. *)
Definition getBuildDetailsAndSendMessage (build : Build)
    : M (Build * gmap string PostValue) :=
  build <- call_getDetailsForBuild build ;;
  let text := getMessage build in
  let postData : gmap string PostValue := ∅ in
  tp <- (if attachments self then
           attachments_ <- getAttachments build ;;
           ret (text,
                if truthy_list attachments_
                then <["attachments" := PAttachments attachments_]> postData
                else postData)
         else
           ret (text +:+ " here: " +:+ url build, postData)) ;;
  let text := fst tp in
  let postData := snd tp in
  let postData := <["text" := PStr text]> postData in
  let postData :=
    if truthy_str (channel self)
    then <["channel" := PStr (str_of_optstr (channel self))]> postData
    else postData in
  let postData :=
    <["icon_emoji" := PStr (status_emoji (results build))]> postData in
  let extra_params := getExtraParams build in
  let postData := dict_update postData extra_params in
  ret (build, postData).

(** The URL argument of [self._http.post] (reporter.py:255-259). *)
Definition post_target : string :=
  if truthy_str (baseUrl self) then endpoint self else "".

(** One turn of the loop of [sendMessage] (reporter.py:248-273). *)
Definition post_attempt (postData : gmap string PostValue)
    (sourcestamp : SourceStamp) : M unit :=
  let sha := revision sourcestamp in
  (match sha with
   | None => log info_no_revision
   | Some _ => ret tt
   end) ;;;
  log (info_posting (endpoint self)) ;;;
  try_except
    (response <- (if truthy_str (baseUrl self)
                  then call_post (endpoint self) postData
                  else call_post "" postData) ;;
     if negb (code response =? 200) then
       content_ <- call_content response ;;
       log (error_upload (code response) content_)
     else ret tt)
    (fun e => log (error_send (repository sourcestamp) sha e)).

(** The delivery loop (reporter.py:246-273). *)
Definition dispatch (postData : gmap string PostValue)
    (stamps : list SourceStamp) : M unit :=
  for_each (post_attempt postData) stamps.

(** [sendMessage] (reporter.py:238-273). *)
Definition sendMessage (reports : list Report) : M unit :=
  report <- index0 reports ;;
  build <- index0 (builds report) ;;
  bp <- getBuildDetailsAndSendMessage build ;;
  let build := fst bp in
  let postData := snd bp in
  if dict_is_empty postData then ret tt
  else dispatch postData (sourcestamps (buildset build)).

(** [buildStarted] and [buildFinished] (reporter.py:227-233). *)
Definition buildStarted (reports : list Report) : M unit := sendMessage reports.
Definition buildFinished (reports : list Report) : M unit := sendMessage reports.

End Reporter.

(** ** Observing a trace *)

(** The HTTP request an event stands for, if it is one. *)
Definition post_of (e : Event) : option (string * gmap string PostValue) :=
  match e with
  | CallPost ep json => Some (ep, json)
  | _ => None
  end.

(** The POST attempts of a trace, in order. *)
Definition posts (tr : list Event) : list (string * gmap string PostValue) :=
  omap post_of tr.

(** The responsible-users lookups of a trace. *)
Definition lookup_of (e : Event) : option Z :=
  match e with
  | CallGetResponsibleUsers id => Some id
  | _ => None
  end.

Definition lookups (tr : list Event) : list Z := omap lookup_of tr.

(** The log lines written before the request of one attempt. *)
Definition announce (self : SlackStatusPush) (sourcestamp : SourceStamp) : list Event :=
  match revision sourcestamp with
  | None => [Log info_no_revision; Log (info_posting (endpoint self))]
  | Some _ => [Log (info_posting (endpoint self))]
  end.

(** ** Vocabulary of the statements *)

(** The request of an attempt, as it appears on the trace. *)
Definition request (self : SlackStatusPush) (postData : gmap string PostValue) : Event :=
  CallPost (post_target self) postData.

(** What the endpoint answers to the request of an attempt that starts
    at trace [tr]. *)
Definition answer (env : Env) (self : SlackStatusPush)
    (postData : gmap string PostValue) (sourcestamp : SourceStamp)
    (tr : list Event) : Result Response :=
  http_post env (tr ++ announce self sourcestamp) (post_target self) postData.

(** A field as the reporter writes it, with [short] set. *)
Definition short_field (title value : string) : Field.t :=
  {| Field.title := title; Field.value := value; Field.short := true |}.

(** The field list of a build that is not a sub-build, as a function of
    the sourcestamp and of the responsible users that were found. *)
Definition fields_for (sourcestamp : SourceStamp) (users : list string) : list Field.t :=
  (if truthy_str (branch sourcestamp)
   then [short_field "Branch" (str_of_optstr (branch sourcestamp))] else [])
  ++ (if truthy_text (repository sourcestamp)
      then [short_field "Repository" (repository sourcestamp)] else [])
  ++ (if truthy_list users
      then [short_field "Commiters" (join ", " users)] else []).

(** The fields of one attachment are as they should be for a build that
    is not a sub-build: each of the three fields is there with its value
    when its source is non-empty, and no field has its title otherwise. *)
Definition fields_as_claimed (sourcestamp : SourceStamp) (users : list string)
    (a : Attachment.t) : Prop :=
  (forall b, branch sourcestamp = Some b -> b <> "" ->
     short_field "Branch" b ∈ Attachment.fields a) /\
  (truthy_str (branch sourcestamp) = false ->
     forall f, f ∈ Attachment.fields a -> Field.title f <> "Branch") /\
  (repository sourcestamp <> "" ->
     short_field "Repository" (repository sourcestamp) ∈ Attachment.fields a) /\
  (repository sourcestamp = "" ->
     forall f, f ∈ Attachment.fields a -> Field.title f <> "Repository") /\
  (users <> [] ->
     short_field "Commiters" (join ", " users) ∈ Attachment.fields a) /\
  (users = [] ->
     forall f, f ∈ Attachment.fields a -> Field.title f <> "Commiters").

(** The attachment [a] was rendered for [sourcestamp] with the users
    some lookup returned. *)
Definition rendered_with_lookup (env : Env) (build : Build)
    (sourcestamp : SourceStamp) (a : Attachment.t) : Prop :=
  exists t users,
    getResponsibleUsersForBuild env t (buildid build) = Ok users /\
    Attachment.fields a = fields_for sourcestamp users.

(** The payload as [getBuildDetailsAndSendMessage] builds it from the
    text and from the dictionary [base] that holds the attachments, if
    any. *)
Definition assembled (self : SlackStatusPush) (build : Build) (text : string)
    (base : gmap string PostValue) : gmap string PostValue :=
  let postData := <["text" := PStr text]> base in
  let postData :=
    if truthy_str (channel self)
    then <["channel" := PStr (str_of_optstr (channel self))]> postData
    else postData in
  <["icon_emoji" := PStr (status_emoji (results build))]> postData.

(** The precondition of [sendMessage]: there is a first report and it
    has a first build. *)
Definition has_first_build (reports : list Report) : Prop :=
  exists build rest more, reports = {| builds := build :: rest |} :: more.

(** ** A running example *)

Module Sample.

Definition main_stamp : SourceStamp :=
  {| revision := Some "4f2a9c1"; branch := Some "main";
     repository := "org/repo"; project := "" |}.

Definition bare_stamp : SourceStamp :=
  {| revision := None; branch := None; repository := ""; project := "docs" |}.

Definition build_of (stamps : list SourceStamp) (parent : option Z) : Build :=
  {| buildid := 7;
     builder := {| name := "unit-tests" |};
     buildset := {| sourcestamps := stamps;
                    parent_buildid := parent;
                    parent_relationship := Some "Triggered from" |};
     complete := true;
     results := Some SUCCESS;
     url := "http://ci.example/#/builders/1/builds/7" |}.

Definition build : Build := build_of [main_stamp] None.

Definition two_stamps : Build := build_of [main_stamp; bare_stamp] None.

Definition child : Build := build_of [main_stamp] (Some 3).

(** The sample build while it is still running. *)
Definition running : Build :=
  {| buildid := 7;
     builder := {| name := "unit-tests" |};
     buildset := buildset build;
     complete := false;
     results := None;
     url := url build |}.

Definition ok_response : Response := {| code := 200; content := Ok "ok" |}.

Definition error_response : Response := {| code := 500; content := Ok "server error" |}.

(** Enrichment leaves the record as it is, two committers are found,
    and the endpoint answers 200. *)
Definition env : Env :=
  {| getDetailsForBuild := fun _ b => Ok b;
     getResponsibleUsersForBuild := fun _ _ => Ok ["ann"; "bob"]%string;
     http_post := fun _ _ _ => Ok ok_response |}.

(** The endpoint answers 500 to the first request of an invocation and
    200 afterwards. *)
Definition env_first_fails : Env :=
  {| getDetailsForBuild := fun _ b => Ok b;
     getResponsibleUsersForBuild := fun _ _ => Ok ["ann"; "bob"]%string;
     http_post := fun tr _ _ =>
       match posts tr with
       | [] => Ok error_response
       | _ => Ok ok_response
       end |}.

(** The connection is refused. *)
Definition env_down : Env :=
  {| getDetailsForBuild := fun _ b => Ok b;
     getResponsibleUsersForBuild := fun _ _ => Ok [];
     http_post := fun _ _ _ => Raise (Error "connection refused") |}.

Definition self : SlackStatusPush :=
  reconfigService "https://hooks.example/T0/B0" (Some "#ci") None
                  (Some "buildbot") true.

Definition self_plain : SlackStatusPush :=
  reconfigService "https://hooks.example/T0/B0" None None None false.

(** Assembling the payload of the two-sourcestamp build while the
    endpoint is down, and the payload that comes out. *)
Definition assembly : Result (Build * gmap string PostValue) * list Event :=
  getBuildDetailsAndSendMessage env_down self two_stamps [].

Definition payload : gmap string PostValue :=
  match fst assembly with
  | Ok bp => snd bp
  | Raise _ => ∅
  end.

End Sample.

(** ** Configuration checks (reporter.py:56-88) *)











(** ** More observations of a trace *)

Definition log_of (e : Event) : option LogRecord :=
  match e with
  | Log r => Some r
  | _ => None
  end.

(** The log lines of a trace, in order. *)
Definition logged (tr : list Event) : list LogRecord := omap log_of tr.

Definition is_error (r : LogRecord) : bool :=
  match r with
  | error_upload _ _ | error_send _ _ _ => true
  | _ => false
  end.

(** The error lines of a trace. *)
Definition errors (tr : list Event) : list LogRecord :=
  List.filter is_error (logged tr).

Definition content_of (e : Event) : option Z :=
  match e with
  | CallContent c => Some c
  | _ => None
  end.

(** The response bodies read in a trace, by the code of the response. *)
Definition contents (tr : list Event) : list Z := omap content_of tr.

Definition details_of (e : Event) : option Build :=
  match e with
  | CallGetDetails b => Some b
  | _ => None
  end.

(** The enrichment calls of a trace. *)
Definition enrichments (tr : list Event) : list Build := omap details_of tr.

(** ** Failing collaborators *)

Module Faulty.

(** The responsible-users lookup answers once and raises from the second
    call on. *)
Definition env_second_lookup : Env :=
  {| getDetailsForBuild := fun _ b => Ok b;
     getResponsibleUsersForBuild := fun tr _ =>
       match lookups tr with
       | [] => Ok ["ann"]%string
       | _ => Raise (Error "database gone")
       end;
     http_post := fun _ _ _ => Ok Sample.ok_response |}.

(** The enrichment call raises. *)
Definition env_no_details : Env :=
  {| getDetailsForBuild := fun _ _ => Raise (Error "no such build");
     getResponsibleUsersForBuild := fun _ _ => Ok [];
     http_post := fun _ _ _ => Ok Sample.ok_response |}.

(** The endpoint answers 503 to every request. *)
Definition env_unavailable : Env :=
  {| getDetailsForBuild := fun _ b => Ok b;
     getResponsibleUsersForBuild := fun _ _ => Ok [];
     http_post := fun _ _ _ =>
       Ok {| code := 503; content := Ok "unavailable" |} |}.

(** The sample build without sourcestamps. *)
Definition no_stamps : Build := Sample.build_of [] None.

(** The sample reporter with the attachments display off. *)
Definition self_no_attachments : SlackStatusPush :=
  reconfigService "https://hooks.example/T0/B0" (Some "#ci") None None false.

End Faulty.

(** ** Laws of the computation type *)

Lemma bind_Ok {A B} (m : M A) (k : A -> M B) tr a tr' :
  m tr = (Ok a, tr') -> bind m k tr = k a tr'.
Proof. intros H. unfold bind. by rewrite H. Qed.

Lemma bind_Raise {A B} (m : M A) (k : A -> M B) tr e tr' :
  m tr = (Raise e, tr') -> bind m k tr = (Raise e, tr').
Proof. intros H. unfold bind. by rewrite H. Qed.

Lemma posts_app tr1 tr2 : posts (tr1 ++ tr2) = posts tr1 ++ posts tr2.
Proof. apply omap_app. Qed.

Lemma lookups_app tr1 tr2 : lookups (tr1 ++ tr2) = lookups tr1 ++ lookups tr2.
Proof. apply omap_app. Qed.

Lemma posts_announce self sourcestamp : posts (announce self sourcestamp) = [].
Proof. unfold announce. by destruct (revision sourcestamp). Qed.

(** ** Status tables *)

Lemma STATUS_COLORS_unmapped k : k ∉ Results -> STATUS_COLORS !! k = None.
Proof. intros H. unfold STATUS_COLORS. by apply not_elem_of_list_to_map_1. Qed.

Lemma STATUS_EMOJIS_unmapped k : k ∉ Results -> STATUS_EMOJIS !! k = None.
Proof. intros H. unfold STATUS_EMOJIS. by apply not_elem_of_list_to_map_1. Qed.

Lemma STATUS_tables_mapped k :
  k ∈ Results ->
  exists c i, STATUS_COLORS !! k = Some c /\ STATUS_EMOJIS !! k = Some i /\
              c <> "" /\ i <> "".
Proof.
  unfold Results. intros H.
  repeat (apply elem_of_cons in H as [-> | H];
          [eexists _, _; repeat split; done |]).
  by apply elem_of_nil in H.
Qed.

Lemma statusToString_known r :
  0 <= r <= 6 -> statusToString (Some r) ∈ Results.
Proof.
  intros H.
  assert (r = 0 \/ r = 1 \/ r = 2 \/ r = 3 \/ r = 4 \/ r = 5 \/ r = 6) as Hr by lia.
  clear H. unfold Results.
  repeat (destruct Hr as [-> | Hr]; [cbn; set_solver |]).
  subst r. cbn. set_solver.
Qed.

Lemma statusToString_unknown r :
  ~ (0 <= r <= 6) -> statusToString (Some r) = "Invalid status".
Proof.
  intros H. unfold statusToString.
  destruct (r <? 0) eqn:Hlo; [done |].
  destruct (Z.of_nat (length Results) <=? r) eqn:Hhi; [done |].
  apply Z.ltb_ge in Hlo. apply Z.leb_gt in Hhi. cbn in Hhi. lia.
Qed.

(** C4.  The status tables have the seven result names as their keys, each
    with a non-empty color and icon (success: [#36a64f] and
    [:sunglassses:]); a key outside the tables resolves to the fallback,
    the empty color string and the icon [:facepalm:].  The same holds
    through [statusToString]: the codes 0..6 resolve to non-empty values,
    an out-of-range or absent code to the fallback.  Both lookups are
    total functions of their argument. *)
Theorem status_lookup_total :
  (forall k, k ∈ Results ->
     dict_get STATUS_COLORS k "" <> "" /\
     dict_get STATUS_EMOJIS k ":facepalm:" <> "" /\
     STATUS_COLORS !! k = Some (dict_get STATUS_COLORS k "") /\
     STATUS_EMOJIS !! k = Some (dict_get STATUS_EMOJIS k ":facepalm:")) /\
  (forall k, k ∉ Results ->
     dict_get STATUS_COLORS k "" = "" /\
     dict_get STATUS_EMOJIS k ":facepalm:" = ":facepalm:") /\
  (status_color (Some SUCCESS) = "#36a64f" /\
   status_emoji (Some SUCCESS) = ":sunglassses:") /\
  (forall r, 0 <= r <= 6 ->
     status_color (Some r) <> "" /\ status_emoji (Some r) <> "") /\
  (forall r, ~ (0 <= r <= 6) ->
     status_color (Some r) = "" /\ status_emoji (Some r) = ":facepalm:") /\
  (status_color None = "" /\ status_emoji None = ":facepalm:").
Proof.
  assert (forall k, k ∈ Results ->
     dict_get STATUS_COLORS k "" <> "" /\
     dict_get STATUS_EMOJIS k ":facepalm:" <> "" /\
     STATUS_COLORS !! k = Some (dict_get STATUS_COLORS k "") /\
     STATUS_EMOJIS !! k = Some (dict_get STATUS_EMOJIS k ":facepalm:")) as Hin.
  { intros k Hk.
    destruct (STATUS_tables_mapped k Hk) as (c & i & Hc & Hi & Hcne & Hine).
    unfold dict_get. rewrite Hc, Hi. by cbn. }
  assert (forall k, k ∉ Results ->
     dict_get STATUS_COLORS k "" = "" /\
     dict_get STATUS_EMOJIS k ":facepalm:" = ":facepalm:") as Hout.
  { intros k Hk. unfold dict_get.
    by rewrite (STATUS_COLORS_unmapped k Hk), (STATUS_EMOJIS_unmapped k Hk). }
  split; [exact Hin |]. split; [exact Hout |].
  split; [by split |].
  split.
  { intros r Hr. unfold status_color, status_emoji.
    destruct (Hin _ (statusToString_known r Hr)) as (? & ? & _). by split. }
  split.
  { intros r Hr. unfold status_color, status_emoji.
    rewrite (statusToString_unknown r Hr). by split. }
  by split.
Qed.

(** Two instances: a warning, and a code the framework does not know. *)
Lemma status_lookup_total_witness :
  (status_color (Some WARNINGS) <> "" /\ status_emoji (Some WARNINGS) <> "") /\
  (status_color (Some 42) = "" /\ status_emoji (Some 42) = ":facepalm:").
Proof.
  destruct status_lookup_total as (_ & _ & _ & Hknown & Hunknown & _).
  split.
  - apply (Hknown WARNINGS). unfold WARNINGS. lia.
  - apply (Hunknown 42). lia.
Defined.

(** ** Primary text *)

Lemma getMessage_started build :
  complete build = false ->
  getMessage build = "Buildbot started build " +:+ name (builder build).
Proof. intros H. unfold getMessage. by rewrite H. Qed.

Lemma getMessage_finished build :
  complete build = true ->
  getMessage build =
    "Buildbot finished build " +:+ name (builder build)
      +:+ " with result: " +:+ statusToString (results build).
Proof. intros H. unfold getMessage. by rewrite H. Qed.

(** C3.  The primary text depends on the build only through its
    completion flag, builder name and result code.  For a build that is
    not complete it is the "started" line with the builder name, whatever
    the result code is; for a complete build it is the "finished" line with
    the builder name and the result string; builder "unit-tests" with
    result SUCCESS gives exactly
    "Buildbot finished build unit-tests with result: success". *)
Theorem getMessage_text :
  (forall b1 b2,
     complete b1 = complete b2 ->
     name (builder b1) = name (builder b2) ->
     results b1 = results b2 ->
     getMessage b1 = getMessage b2) /\
  (forall b,
     complete b = false ->
     getMessage b = "Buildbot started build " +:+ name (builder b)) /\
  (forall b,
     complete b = true ->
     getMessage b =
       "Buildbot finished build " +:+ name (builder b)
         +:+ " with result: " +:+ statusToString (results b)) /\
  (forall b,
     complete b = true ->
     name (builder b) = "unit-tests" ->
     results b = Some SUCCESS ->
     getMessage b = "Buildbot finished build unit-tests with result: success").
Proof.
  split; [| split; [| split]].
  - intros b1 b2 Hc Hn Hr. unfold getMessage. by rewrite Hc, Hn, Hr.
  - apply getMessage_started.
  - apply getMessage_finished.
  - intros b Hc Hn Hr. rewrite (getMessage_finished b Hc), Hn, Hr. reflexivity.
Qed.

(** Two instances: the sample build, finished and still running. *)
Lemma getMessage_text_witness :
  getMessage Sample.build
    = "Buildbot finished build unit-tests with result: success" /\
  getMessage Sample.running = "Buildbot started build unit-tests".
Proof.
  destruct getMessage_text as (_ & Hstarted & _ & Hexact).
  split.
  - apply (Hexact Sample.build); reflexivity.
  - exact (Hstarted Sample.running eq_refl).
Defined.

(** ** The entry point *)

(** C10.  [sendMessage], to which [buildStarted] and [buildFinished]
    both delegate, indexes the first report and its first build: an empty
    reports list, or a first report with no builds, fails with
    [IndexError] before anything else happens (no call is made, and the
    result is the exception, not a normal return), and everything after
    the first build of the first report is ignored. *)
Theorem sendMessage_indexes_first env self :
  (forall reports tr,
     buildStarted env self reports tr = sendMessage env self reports tr /\
     buildFinished env self reports tr = sendMessage env self reports tr) /\
  (forall tr, sendMessage env self [] tr = (Raise IndexError, tr)) /\
  (forall more tr,
     sendMessage env self ({| builds := [] |} :: more) tr
       = (Raise IndexError, tr)) /\
  (forall reports tr,
     ~ has_first_build reports ->
     sendMessage env self reports tr = (Raise IndexError, tr)) /\
  (forall build rest more tr,
     sendMessage env self ({| builds := build :: rest |} :: more) tr
       = sendMessage env self [ {| builds := [build] |} ] tr).
Proof.
  split; [by split |]. split; [done |]. split; [done |]. split; [| done].
  intros reports tr Hpre.
  destruct reports as [| [[| build rest]] more]; [done | done |].
  exfalso. apply Hpre. by exists build, rest, more.
Qed.

(** An instance: one report that carries no build. *)
Lemma sendMessage_indexes_first_witness :
  sendMessage Sample.env Sample.self [ {| builds := [] |} ] []
    = (Raise IndexError, []).
Proof.
  destruct (sendMessage_indexes_first Sample.env Sample.self)
    as (_ & _ & _ & Hpre & _).
  apply Hpre. intros (build & rest & more & Heq). discriminate Heq.
Defined.

(** ** One delivery attempt *)

Section Attempt.

Context (env : Env) (self : SlackStatusPush).
Context (postData : gmap string PostValue) (sourcestamp : SourceStamp).

Lemma post_attempt_unfold tr :
  post_attempt env self postData sourcestamp tr =
    match answer env self postData sourcestamp tr with
    | Ok response =>
        if negb (code response =? 200) then
          match content response with
          | Ok body =>
              (Ok tt, tr ++ announce self sourcestamp
                         ++ [request self postData; CallContent (code response);
                             Log (error_upload (code response) body)])
          | Raise e =>
              (Ok tt, tr ++ announce self sourcestamp
                         ++ [request self postData; CallContent (code response);
                             Log (error_send (repository sourcestamp)
                                             (revision sourcestamp) e)])
          end
        else (Ok tt, tr ++ announce self sourcestamp ++ [request self postData])
    | Raise e =>
        (Ok tt, tr ++ announce self sourcestamp
                   ++ [request self postData;
                       Log (error_send (repository sourcestamp)
                                       (revision sourcestamp) e)])
    end.
Proof.
  unfold post_attempt, answer, request, announce, post_target.
  unfold bind, try_except, log, ret, call_content, call_post, call.
  destruct (revision sourcestamp) as [sha |];
    destruct (truthy_str (baseUrl self)); cbn;
    rewrite <- ?app_assoc; cbn;
    (destruct (http_post env _ _ _) as [response | e]; cbn;
     [ destruct (code response =? 200); cbn;
       [| destruct (content response) as [body | e]; cbn ] |]);
    rewrite <- ?app_assoc; reflexivity.
Qed.

Lemma post_attempt_returns tr :
  exists added,
    post_attempt env self postData sourcestamp tr = (Ok tt, tr ++ added) /\
    posts added = [(post_target self, postData)].
Proof.
  rewrite post_attempt_unfold.
  destruct (answer env self postData sourcestamp tr) as [response | e];
    [ destruct (negb (code response =? 200));
      [ destruct (content response) as [body | e] |] |];
    eexists; (split; [reflexivity |]);
    rewrite posts_app, posts_announce; reflexivity.
Qed.

End Attempt.

(** C2.  One attempt of the delivery loop, started at any trace and
    against any endpoint behaviour, returns normally.  After the two log
    lines and the request:
    - a response whose code is not 200 (so every non-2xx response) has
      its body read, and the code and the body are logged as an error;
    - an exception raised by the request, or by reading the body, is
      logged as an error with the repository, the revision and the
      exception;
    - a response with code 200 ends the attempt with nothing read and
      nothing logged. *)
Theorem post_attempt_outcomes env self postData sourcestamp tr :
  let before := tr ++ announce self sourcestamp in
  let req := request self postData in
  (exists tr', post_attempt env self postData sourcestamp tr = (Ok tt, tr')) /\
  (forall response body,
     answer env self postData sourcestamp tr = Ok response ->
     code response <> 200 ->
     content response = Ok body ->
     post_attempt env self postData sourcestamp tr
       = (Ok tt, before ++ [req; CallContent (code response);
                            Log (error_upload (code response) body)])) /\
  (forall e,
     answer env self postData sourcestamp tr = Raise e ->
     post_attempt env self postData sourcestamp tr
       = (Ok tt, before ++ [req;
                            Log (error_send (repository sourcestamp)
                                            (revision sourcestamp) e)])) /\
  (forall response e,
     answer env self postData sourcestamp tr = Ok response ->
     code response <> 200 ->
     content response = Raise e ->
     post_attempt env self postData sourcestamp tr
       = (Ok tt, before ++ [req; CallContent (code response);
                            Log (error_send (repository sourcestamp)
                                            (revision sourcestamp) e)])) /\
  (forall response,
     answer env self postData sourcestamp tr = Ok response ->
     code response = 200 ->
     post_attempt env self postData sourcestamp tr = (Ok tt, before ++ [req])).
Proof.
  cbn zeta. split; [| split; [| split; [| split]]].
  - destruct (post_attempt_returns env self postData sourcestamp tr)
      as (added & Hrun & _).
    eauto.
  - intros response body Hans Hcode Hbody.
    rewrite post_attempt_unfold, Hans, Hbody.
    apply Z.eqb_neq in Hcode. rewrite Hcode. cbn. by rewrite app_assoc.
  - intros e Hans.
    rewrite post_attempt_unfold, Hans. by rewrite app_assoc.
  - intros response e Hans Hcode Hbody.
    rewrite post_attempt_unfold, Hans, Hbody.
    apply Z.eqb_neq in Hcode. rewrite Hcode. cbn. by rewrite app_assoc.
  - intros response Hans Hcode.
    rewrite post_attempt_unfold, Hans.
    apply Z.eqb_eq in Hcode. rewrite Hcode. cbn. by rewrite app_assoc.
Qed.

(** Three instances: a 500 answer, a refused connection and a 200 answer
    for the sample sourcestamp. *)
Lemma post_attempt_outcomes_witness :
  post_attempt Sample.env_first_fails Sample.self ∅ Sample.main_stamp []
    = (Ok tt, [Log (info_posting "https://hooks.example/T0/B0");
               CallPost "" ∅; CallContent 500;
               Log (error_upload 500 "server error")]) /\
  post_attempt Sample.env_down Sample.self ∅ Sample.main_stamp []
    = (Ok tt, [Log (info_posting "https://hooks.example/T0/B0");
               CallPost "" ∅;
               Log (error_send "org/repo" (Some "4f2a9c1")
                               (Error "connection refused"))]) /\
  post_attempt Sample.env Sample.self ∅ Sample.main_stamp []
    = (Ok tt, [Log (info_posting "https://hooks.example/T0/B0");
               CallPost "" ∅]).
Proof.
  split; [| split].
  - destruct (post_attempt_outcomes Sample.env_first_fails Sample.self ∅
                Sample.main_stamp []) as (_ & Herror & _).
    apply (Herror Sample.error_response "server error");
      [reflexivity | cbn; lia | reflexivity].
  - destruct (post_attempt_outcomes Sample.env_down Sample.self ∅
                Sample.main_stamp []) as (_ & _ & Hraise & _).
    apply (Hraise (Error "connection refused")). reflexivity.
  - destruct (post_attempt_outcomes Sample.env Sample.self ∅
                Sample.main_stamp []) as (_ & _ & _ & _ & Hok).
    apply (Hok Sample.ok_response); reflexivity.
Defined.

(** ** The delivery loop *)

Lemma for_each_app {X} (body : X -> M unit) (l1 l2 : list X) tr :
  for_each body (l1 ++ l2) tr = (for_each body l1 ;;; for_each body l2) tr.
Proof.
  revert tr. induction l1 as [| x l1 IH]; intros tr; [done |].
  cbn [app for_each]. unfold bind.
  destruct (body x tr) as [[[] | e] tr1]; [| done].
  rewrite IH. reflexivity.
Qed.

Lemma for_each_post_attempt env self postData stamps tr :
  exists added,
    for_each (post_attempt env self postData) stamps tr = (Ok tt, tr ++ added) /\
    posts added = (fun _ => (post_target self, postData)) <$> stamps.
Proof.
  revert tr. induction stamps as [| sourcestamp rest IH]; intros tr.
  - exists []. cbn. by rewrite app_nil_r.
  - destruct (post_attempt_returns env self postData sourcestamp tr)
      as (first & Hfirst & Hposts).
    destruct (IH (tr ++ first)) as (others & Hrest & Hothers).
    exists (first ++ others). split.
    + cbn [for_each]. rewrite (bind_Ok _ _ _ _ _ Hfirst), Hrest.
      by rewrite app_assoc.
    + rewrite posts_app, Hposts, Hothers. reflexivity.
Qed.

(** C1.  Whatever the endpoint answers, the delivery loop over a list of
    sourcestamps returns normally, and the POST attempts it adds to the
    trace are one per sourcestamp, in order, each with the same target
    and payload: N attempts for N sourcestamps, none for an empty list.
    In particular the attempts after any given sourcestamp are made
    whatever happened to the earlier ones. *)
Theorem dispatch_one_attempt_per_sourcestamp env self postData :
  (forall stamps tr,
     exists added,
       dispatch env self postData stamps tr = (Ok tt, tr ++ added) /\
       posts added = (fun _ => (post_target self, postData)) <$> stamps /\
       length (posts added) = length stamps) /\
  (forall tr, dispatch env self postData [] tr = (Ok tt, tr)) /\
  (forall earlier later tr,
     exists tr1 added,
       dispatch env self postData earlier tr = (Ok tt, tr1) /\
       dispatch env self postData (earlier ++ later) tr = (Ok tt, tr1 ++ added) /\
       length (posts added) = length later).
Proof.
  split; [| split].
  - intros stamps tr.
    destruct (for_each_post_attempt env self postData stamps tr)
      as (added & Hrun & Hposts).
    exists added. split; [exact Hrun |]. split; [exact Hposts |].
    by rewrite Hposts, length_fmap.
  - done.
  - intros earlier later tr. unfold dispatch.
    destruct (for_each_post_attempt env self postData earlier tr)
      as (a1 & Hrun1 & _).
    destruct (for_each_post_attempt env self postData later (tr ++ a1))
      as (a2 & Hrun2 & Hposts2).
    exists (tr ++ a1), a2. split; [exact Hrun1 |]. split.
    + by rewrite for_each_app, (bind_Ok _ _ _ _ _ Hrun1).
    + by rewrite Hposts2, length_fmap.
Qed.

(** The two-sourcestamp scenario: the first request is answered 500, the
    second 200; both are made, and only the first is logged as an error. *)
Example dispatch_after_a_failure :
  exists tr,
    dispatch Sample.env_first_fails Sample.self ∅
             [Sample.main_stamp; Sample.bare_stamp] [] = (Ok tt, tr) /\
    posts tr = [("", ∅); ("", ∅)] /\
    Log (error_upload 500 "server error") ∈ tr.
Proof.
  eexists. split; [reflexivity |]. split; [reflexivity |]. set_solver.
Qed.

(** ** Attachments *)

Lemma truthy_text_true s : truthy_text s = true <-> s <> "".
Proof.
  unfold truthy_text. rewrite negb_true_iff. apply String.eqb_neq.
Qed.

Lemma truthy_text_false s : truthy_text s = false <-> s = "".
Proof.
  unfold truthy_text. rewrite negb_false_iff. apply String.eqb_eq.
Qed.

Lemma fields_for_as_claimed sourcestamp users a :
  Attachment.fields a = fields_for sourcestamp users ->
  fields_as_claimed sourcestamp users a.
Proof.
  unfold fields_as_claimed. intros ->. unfold fields_for.
  repeat split.
  - intros b Hb Hne. rewrite Hb. cbn.
    apply truthy_text_true in Hne. rewrite Hne. set_solver.
  - intros Hb f Hf. rewrite Hb in Hf.
    destruct (truthy_text (repository sourcestamp)), (truthy_list users);
      set_unfold; intuition (subst; discriminate).
  - intros Hne. apply truthy_text_true in Hne. rewrite Hne. set_solver.
  - intros He f Hf. apply truthy_text_false in He. rewrite He in Hf.
    destruct (truthy_str (branch sourcestamp)), (truthy_list users);
      set_unfold; intuition (subst; discriminate).
  - intros Hne. destruct users; [done |]. set_solver.
  - intros -> f Hf. cbn in Hf.
    destruct (truthy_str (branch sourcestamp)),
             (truthy_text (repository sourcestamp));
      set_unfold; intuition (subst; discriminate).
Qed.

Section Attachments.

Context (env : Env) (build : Build).

Lemma attachment_for_sub_build sourcestamp tr :
  sub_build build = true ->
  exists a,
    attachment_for env build sourcestamp tr = (Ok a, tr) /\
    Attachment.fields a = [].
Proof.
  intros Hsub. unfold attachment_for, attachment_fields.
  rewrite Hsub. cbn. eexists. split; reflexivity.
Qed.

Lemma attachment_for_top_build sourcestamp tr :
  sub_build build = false ->
  match getResponsibleUsersForBuild env tr (buildid build) with
  | Ok users =>
      exists a,
        attachment_for env build sourcestamp tr
          = (Ok a, tr ++ [CallGetResponsibleUsers (buildid build)]) /\
        Attachment.fields a = fields_for sourcestamp users
  | Raise e =>
      attachment_for env build sourcestamp tr
        = (Raise e, tr ++ [CallGetResponsibleUsers (buildid build)])
  end.
Proof.
  intros Hsub.
  unfold attachment_for, attachment_fields, fields_for, short_field.
  unfold call_getResponsibleUsersForBuild, call, bind, ret.
  rewrite Hsub. cbn.
  destruct (getResponsibleUsersForBuild env tr (buildid build))
    as [users | e]; [| reflexivity].
  eexists. split; [reflexivity |]. cbn.
  destruct (truthy_str (branch sourcestamp)),
           (truthy_text (repository sourcestamp)),
           (truthy_list users); reflexivity.
Qed.

Lemma getAttachments_loop_sub_build todo acc tr :
  sub_build build = true ->
  exists new,
    getAttachments_loop env build todo acc tr = (Ok (acc ++ new), tr) /\
    length new = length todo /\
    Forall (fun a => Attachment.fields a = []) new.
Proof.
  intros Hsub. revert acc.
  induction todo as [| sourcestamp rest IH]; intros acc.
  - exists []. cbn. by rewrite app_nil_r.
  - destruct (attachment_for_sub_build sourcestamp tr Hsub) as (a & Ha & Hf).
    destruct (IH (acc ++ [a])) as (new & Hrun & Hlen & Hall).
    exists (a :: new). split; [| split].
    + cbn [getAttachments_loop]. rewrite (bind_Ok _ _ _ _ _ Ha), Hrun.
      by rewrite <- app_assoc.
    + cbn. by rewrite Hlen.
    + by constructor.
Qed.

Lemma getAttachments_loop_top_build todo acc tr atts tr' :
  sub_build build = false ->
  getAttachments_loop env build todo acc tr = (Ok atts, tr') ->
  exists new,
    atts = acc ++ new /\
    Forall2 (rendered_with_lookup env build) todo new /\
    lookups tr' = lookups tr ++ ((fun _ => buildid build) <$> todo).
Proof.
  intros Hsub. revert acc tr.
  induction todo as [| sourcestamp rest IH]; intros acc tr Hrun.
  - cbn in Hrun. injection Hrun as <- <-.
    exists []. by rewrite !app_nil_r.
  - cbn [getAttachments_loop] in Hrun.
    pose proof (attachment_for_top_build sourcestamp tr Hsub) as Hone.
    destruct (getResponsibleUsersForBuild env tr (buildid build))
      as [users | e] eqn:Hlook.
    + destruct Hone as (a & Ha & Hf).
      rewrite (bind_Ok _ _ _ _ _ Ha) in Hrun.
      destruct (IH _ _ Hrun) as (new & -> & Hall & Htr).
      exists (a :: new). split; [by rewrite <- app_assoc |]. split.
      * constructor; [| exact Hall]. by exists tr, users.
      * rewrite Htr, lookups_app. cbn. by rewrite <- app_assoc.
    + rewrite (bind_Raise _ _ _ _ _ Hone) in Hrun. discriminate Hrun.
Qed.

Lemma getAttachments_loop_total todo acc tr :
  sub_build build = false ->
  (forall t, exists users,
      getResponsibleUsersForBuild env t (buildid build) = Ok users) ->
  exists atts tr', getAttachments_loop env build todo acc tr = (Ok atts, tr').
Proof.
  intros Hsub Hlook. revert acc tr.
  induction todo as [| sourcestamp rest IH]; intros acc tr.
  - by exists acc, tr.
  - pose proof (attachment_for_top_build sourcestamp tr Hsub) as Hone.
    destruct (Hlook tr) as (users & Husers). rewrite Husers in Hone.
    destruct Hone as (a & Ha & _).
    cbn [getAttachments_loop]. rewrite (bind_Ok _ _ _ _ _ Ha). apply IH.
Qed.

End Attachments.

(** C5.  For a sub-build (the parent build id of its buildset is truthy:
    present and not zero), [getAttachments] returns one attachment per
    sourcestamp, each with an empty field list, so with no Branch,
    Repository or Commiters field; and it leaves the trace as it found
    it: the responsible-users lookup is not called. *)
Theorem sub_build_attachments_have_no_fields env build tr :
  sub_build build = true ->
  exists atts,
    getAttachments env build tr = (Ok atts, tr) /\
    length atts = length (sourcestamps (buildset build)) /\
    Forall (fun a => Attachment.fields a = []) atts /\
    (forall a f,
       a ∈ atts -> f ∈ Attachment.fields a ->
       Field.title f ∉ ["Branch"; "Repository"; "Commiters"]%string).
Proof.
  intros Hsub.
  destruct (getAttachments_loop_sub_build env build
              (sourcestamps (buildset build)) [] tr Hsub)
    as (atts & Hrun & Hlen & Hall).
  exists atts. split; [exact Hrun |]. split; [exact Hlen |].
  split; [exact Hall |].
  intros a f Ha Hf. rewrite Forall_forall in Hall.
  rewrite (Hall a Ha) in Hf. by apply elem_of_nil in Hf.
Qed.

(** An instance: the sample build as a child of build 3. *)
Lemma sub_build_attachments_have_no_fields_witness :
  sub_build Sample.child = true /\
  exists atts,
    getAttachments Sample.env Sample.child [] = (Ok atts, []) /\
    length atts = 1%nat /\
    Forall (fun a => Attachment.fields a = []) atts /\
    (forall a f,
       a ∈ atts -> f ∈ Attachment.fields a ->
       Field.title f ∉ ["Branch"; "Repository"; "Commiters"]%string).
Proof.
  split; [reflexivity |].
  apply (sub_build_attachments_have_no_fields Sample.env Sample.child []).
  reflexivity.
Defined.

(** C6.  For a build that is not a sub-build, whenever [getAttachments]
    returns, it returns one attachment per sourcestamp, in order, after
    one responsible-users lookup per sourcestamp; the fields of each
    attachment are, for the users its lookup returned: a "Branch" field
    with the branch when the branch is non-empty and none otherwise, a
    "Repository" field with the repository when it is non-empty and none
    otherwise, and a "Commiters" field with the users joined by ", "
    when there are users and none otherwise.  It does return when the
    lookup never raises. *)
Theorem top_build_attachment_fields env build tr :
  sub_build build = false ->
  (forall atts tr',
     getAttachments env build tr = (Ok atts, tr') ->
     Forall2
       (fun sourcestamp a =>
          exists t users,
            getResponsibleUsersForBuild env t (buildid build) = Ok users /\
            fields_as_claimed sourcestamp users a)
       (sourcestamps (buildset build)) atts /\
     lookups tr' =
       lookups tr ++ ((fun _ => buildid build) <$> sourcestamps (buildset build))) /\
  ((forall t, exists users,
       getResponsibleUsersForBuild env t (buildid build) = Ok users) ->
   exists atts tr', getAttachments env build tr = (Ok atts, tr')).
Proof.
  intros Hsub. split.
  - intros atts tr' Hrun.
    destruct (getAttachments_loop_top_build env build _ _ _ _ _ Hsub Hrun)
      as (new & -> & Hall & Htr).
    split; [| exact Htr]. cbn.
    eapply Forall2_impl; [exact Hall |].
    intros sourcestamp a (t & users & Hlook & Hf).
    exists t, users. split; [exact Hlook |].
    by apply fields_for_as_claimed.
  - intros Hlook. by apply getAttachments_loop_total.
Qed.

(** An instance: the sample build with two sourcestamps, the second
    without branch and repository. *)
Lemma top_build_attachment_fields_witness :
  exists atts tr',
    getAttachments Sample.env Sample.two_stamps [] = (Ok atts, tr') /\
    Forall2
      (fun sourcestamp a =>
         exists t users,
           getResponsibleUsersForBuild Sample.env t 7 = Ok users /\
           fields_as_claimed sourcestamp users a)
      [Sample.main_stamp; Sample.bare_stamp] atts /\
    lookups tr' = [7; 7].
Proof.
  eexists _, _. split; [reflexivity |].
  apply (top_build_attachment_fields Sample.env Sample.two_stamps []);
    reflexivity.
Defined.

(** The fields of the sample build's only attachment. *)
Example sample_attachment_fields :
  exists a tr',
    getAttachments Sample.env Sample.build [] = (Ok [a], tr') /\
    Attachment.title a = "Build #7" /\
    Attachment.color a = "#36a64f" /\
    Attachment.fields a =
      [short_field "Branch" "main"; short_field "Repository" "org/repo";
       short_field "Commiters" "ann, bob"].
Proof. eexists _, _. repeat split. Qed.

(** The title of a child build's attachment for a sourcestamp with a
    project and no revision. *)
Example sample_child_title :
  attachment_title (Sample.build_of [] (Some 3)) Sample.bare_stamp
    = "Build #7 for docs None Triggered from: #3".
Proof. reflexivity. Qed.

(** ** Payload assembly *)

Section Assembly.

Context (env : Env) (self : SlackStatusPush).

Lemma assembly_without_attachments build tr build' :
  attachments self = false ->
  getDetailsForBuild env tr build = Ok build' ->
  getBuildDetailsAndSendMessage env self build tr
    = (Ok (build',
           assembled self build' (getMessage build' +:+ " here: " +:+ url build') ∅),
       tr ++ [CallGetDetails build]).
Proof.
  intros Hoff Hdetails.
  unfold getBuildDetailsAndSendMessage, call_getDetailsForBuild, call.
  unfold bind, ret. rewrite Hdetails, Hoff. cbn.
  unfold assembled, dict_update, getExtraParams.
  by rewrite (left_id_L ∅ (∪)).
Qed.

Lemma assembly_with_attachments build tr build' atts tr' :
  attachments self = true ->
  getDetailsForBuild env tr build = Ok build' ->
  getAttachments env build' (tr ++ [CallGetDetails build]) = (Ok atts, tr') ->
  getBuildDetailsAndSendMessage env self build tr
    = (Ok (build',
           assembled self build' (getMessage build')
             (if truthy_list atts
              then {["attachments" := PAttachments atts]} else ∅)),
       tr').
Proof.
  intros Hon Hdetails Hatts.
  unfold getBuildDetailsAndSendMessage, call_getDetailsForBuild, call.
  unfold bind, ret. rewrite Hdetails, Hon, Hatts. cbn.
  unfold assembled, dict_update, getExtraParams.
  rewrite (left_id_L ∅ (∪)). by destruct (truthy_list atts).
Qed.

(** Every payload that is returned was built in one of these two
    ways. *)
Lemma assembly_inv build tr build' postData tr1 :
  getBuildDetailsAndSendMessage env self build tr = (Ok (build', postData), tr1) ->
  getDetailsForBuild env tr build = Ok build' /\
  exists text base,
    postData = assembled self build' text base /\
    ((attachments self = false /\ base = ∅ /\
      text = getMessage build' +:+ " here: " +:+ url build' /\
      tr1 = tr ++ [CallGetDetails build])
     \/
     (attachments self = true /\ text = getMessage build' /\
      exists atts,
        getAttachments env build' (tr ++ [CallGetDetails build]) = (Ok atts, tr1) /\
        base = if truthy_list atts
               then {["attachments" := PAttachments atts]} else ∅)).
Proof.
  intros Hrun.
  destruct (getDetailsForBuild env tr build) as [b |e] eqn:Hdetails.
  2:{ unfold getBuildDetailsAndSendMessage, call_getDetailsForBuild, call in Hrun.
      unfold bind in Hrun. rewrite Hdetails in Hrun. discriminate Hrun. }
  destruct (attachments self) eqn:Hflag.
  - destruct (getAttachments env b (tr ++ [CallGetDetails build]))
      as [[atts | e] tr'] eqn:Hatts.
    + rewrite (assembly_with_attachments _ _ _ _ _ Hflag Hdetails Hatts) in Hrun.
      injection Hrun as <- <- <-. split; [done |].
      eexists _, _. split; [reflexivity |]. right. eauto.
    + unfold getBuildDetailsAndSendMessage, call_getDetailsForBuild, call in Hrun.
      unfold bind in Hrun. rewrite Hdetails, Hflag, Hatts in Hrun.
      discriminate Hrun.
  - rewrite (assembly_without_attachments _ _ _ Hflag Hdetails) in Hrun.
    injection Hrun as <- <- <-. split; [done |].
    eexists _, _. split; [reflexivity |]. left. eauto.
Qed.

Lemma assembled_text build text base :
  assembled self build text base !! "text" = Some (PStr text).
Proof.
  unfold assembled. destruct (truthy_str (channel self)); by simplify_map_eq.
Qed.

Lemma assembled_icon build text base :
  assembled self build text base !! "icon_emoji"
    = Some (PStr (status_emoji (results build))).
Proof. unfold assembled. by simplify_map_eq. Qed.

Lemma assembled_channel build text base :
  assembled self build text base !! "channel"
    = if truthy_str (channel self)
      then Some (PStr (str_of_optstr (channel self))) else base !! "channel".
Proof.
  unfold assembled. destruct (truthy_str (channel self)); by simplify_map_eq.
Qed.

Lemma assembled_other build text base k :
  k <> "text" -> k <> "channel" -> k <> "icon_emoji" ->
  assembled self build text base !! k = base !! k.
Proof.
  intros. unfold assembled.
  destruct (truthy_str (channel self)); by simplify_map_eq.
Qed.

Lemma assembled_not_empty build text base :
  dict_is_empty (assembled self build text base) = false.
Proof.
  unfold dict_is_empty. apply Nat.eqb_neq. intros Hsize.
  apply map_size_empty_inv in Hsize.
  pose proof (assembled_text build text base) as Htext.
  rewrite Hsize in Htext. by rewrite lookup_empty in Htext.
Qed.

End Assembly.

(** C7.  Once the build details are fetched: with the attachments
    display disabled, the payload is returned with no [attachments] key
    and with the primary text followed by " here: " and the build URL;
    with the display enabled and a non-empty attachment list rendered,
    the text is the primary text alone and the list is stored under
    [attachments]. *)
Theorem attachments_or_url_suffix env self build tr build' :
  getDetailsForBuild env tr build = Ok build' ->
  (attachments self = false ->
   exists postData,
     getBuildDetailsAndSendMessage env self build tr
       = (Ok (build', postData), tr ++ [CallGetDetails build]) /\
     postData !! "attachments" = None /\
     postData !! "text"
       = Some (PStr (getMessage build' +:+ " here: " +:+ url build'))) /\
  (attachments self = true ->
   forall atts tr',
     getAttachments env build' (tr ++ [CallGetDetails build]) = (Ok atts, tr') ->
     atts <> [] ->
     exists postData,
       getBuildDetailsAndSendMessage env self build tr
         = (Ok (build', postData), tr') /\
       postData !! "attachments" = Some (PAttachments atts) /\
       postData !! "text" = Some (PStr (getMessage build'))).
Proof.
  intros Hdetails. split.
  - intros Hoff. eexists. split; [by apply assembly_without_attachments |].
    split; [| apply assembled_text].
    by rewrite assembled_other.
  - intros Hon atts tr' Hatts Hne.
    eexists. split; [by eapply assembly_with_attachments |].
    split; [| apply assembled_text].
    rewrite assembled_other by done.
    destruct atts; [done |]. cbn. by simplify_map_eq.
Qed.

(** Two instances: the sample build with the display off and on. *)
Lemma attachments_or_url_suffix_witness :
  (exists postData,
     getBuildDetailsAndSendMessage Sample.env Sample.self_plain Sample.build []
       = (Ok (Sample.build, postData), [CallGetDetails Sample.build]) /\
     postData !! "attachments" = None /\
     postData !! "text"
       = Some (PStr ("Buildbot finished build unit-tests with result: success"
                     +:+ " here: " +:+ "http://ci.example/#/builders/1/builds/7"))) /\
  (exists a tr' postData,
     getBuildDetailsAndSendMessage Sample.env Sample.self Sample.build []
       = (Ok (Sample.build, postData), tr') /\
     postData !! "attachments" = Some (PAttachments [a]) /\
     postData !! "text"
       = Some (PStr "Buildbot finished build unit-tests with result: success")).
Proof.
  split.
  - apply (attachments_or_url_suffix Sample.env Sample.self_plain
             Sample.build [] Sample.build); reflexivity.
  - destruct (attachments_or_url_suffix Sample.env Sample.self
                Sample.build [] Sample.build eq_refl) as (_ & Hon).
    eexists _, _. eapply Hon; [reflexivity | reflexivity | discriminate].
Defined.

(** The keys of a returned payload: [text] and [icon_emoji] always,
    [channel] exactly when the configured channel is truthy, and nothing
    besides these and [attachments]. *)
Lemma payload_keys env self build tr build' postData tr1 :
  getBuildDetailsAndSendMessage env self build tr = (Ok (build', postData), tr1) ->
  (exists text, postData !! "text" = Some (PStr text)) /\
  postData !! "icon_emoji" = Some (PStr (status_emoji (results build'))) /\
  postData !! "channel"
    = (if truthy_str (channel self) then PStr <$> channel self else None) /\
  (forall k,
     k ∉ ["attachments"; "text"; "channel"; "icon_emoji"]%string ->
     postData !! k = None).
Proof.
  intros Hrun.
  destruct (assembly_inv _ _ _ _ _ _ _ Hrun) as (_ & text & base & -> & Hbase).
  assert (forall k, k <> "attachments" -> base !! k = None) as Hother.
  { intros k Hk.
    destruct Hbase as [(_ & -> & _) | (_ & _ & atts & _ & ->)]; [done |].
    destruct (truthy_list atts); by simplify_map_eq. }
  split; [eexists; apply assembled_text |].
  split; [apply assembled_icon |]. split.
  - rewrite assembled_channel.
    destruct (channel self) as [c |]; cbn; [| by apply Hother].
    destruct (truthy_text c); [done | by apply Hother].
  - intros k Hk. rewrite !not_elem_of_cons in Hk.
    destruct Hk as (Ha & Ht & Hc & Hi & _).
    rewrite assembled_other by done. by apply Hother.
Qed.

Lemma sendMessage_first env self build rest more tr :
  sendMessage env self ({| builds := build :: rest |} :: more) tr =
    (bp <- getBuildDetailsAndSendMessage env self build ;;
     if dict_is_empty (snd bp) then ret tt
     else dispatch env self (snd bp) (sourcestamps (buildset (fst bp)))) tr.
Proof. reflexivity. Qed.

(** C9.  Every payload that [getBuildDetailsAndSendMessage] returns has
    a [text] key and an [icon_emoji] key, the icon being [:facepalm:]
    when the result string is not in the table; so the payload is not
    empty, the early return of [sendMessage] is not taken, and
    [sendMessage] goes on to make one POST attempt per sourcestamp of the
    build: at least one when the build has a sourcestamp. *)
Theorem payload_never_empty env self build tr build' postData tr1 :
  getBuildDetailsAndSendMessage env self build tr = (Ok (build', postData), tr1) ->
  (exists text, postData !! "text" = Some (PStr text)) /\
  postData !! "icon_emoji" = Some (PStr (status_emoji (results build'))) /\
  (statusToString (results build') ∉ Results ->
   postData !! "icon_emoji" = Some (PStr ":facepalm:")) /\
  dict_is_empty postData = false /\
  (forall rest more,
     exists added,
       sendMessage env self ({| builds := build :: rest |} :: more) tr
         = (Ok tt, tr1 ++ added) /\
       posts added
         = (fun _ => (post_target self, postData)) <$> sourcestamps (buildset build') /\
       (sourcestamps (buildset build') <> [] -> posts added <> [])).
Proof.
  intros Hrun.
  destruct (payload_keys _ _ _ _ _ _ _ Hrun) as (Htext & Hicon & _).
  assert (dict_is_empty postData = false) as Hfull.
  { destruct (assembly_inv _ _ _ _ _ _ _ Hrun) as (_ & text & base & -> & _).
    apply assembled_not_empty. }
  split; [exact Htext |]. split; [exact Hicon |]. split; [| split].
  - intros Hunmapped. rewrite Hicon. unfold status_emoji, dict_get.
    by rewrite (STATUS_EMOJIS_unmapped _ Hunmapped).
  - exact Hfull.
  - intros rest more.
    destruct (for_each_post_attempt env self postData
                (sourcestamps (buildset build')) tr1)
      as (added & Hloop & Hposts).
    exists added. split; [| split].
    + rewrite sendMessage_first, (bind_Ok _ _ _ _ _ Hrun). cbn [fst snd].
      rewrite Hfull. exact Hloop.
    + exact Hposts.
    + intros Hne. rewrite Hposts.
      destruct (sourcestamps (buildset build')); [done | discriminate].
Qed.

(** An instance: the sample build with two sourcestamps against an
    endpoint that refuses the connection. *)
Lemma payload_never_empty_witness :
  Sample.assembly
    = (Ok (Sample.two_stamps, Sample.payload), snd Sample.assembly) /\
  dict_is_empty Sample.payload = false /\
  exists added,
    sendMessage Sample.env_down Sample.self
                [ {| builds := [Sample.two_stamps] |} ] []
      = (Ok tt, snd Sample.assembly ++ added) /\
    posts added = [("", Sample.payload); ("", Sample.payload)].
Proof.
  assert (getBuildDetailsAndSendMessage Sample.env_down Sample.self
            Sample.two_stamps []
          = (Ok (Sample.two_stamps, Sample.payload), snd Sample.assembly))
    as Hrun by reflexivity.
  split; [exact Hrun |].
  destruct (payload_never_empty Sample.env_down Sample.self Sample.two_stamps []
              Sample.two_stamps Sample.payload (snd Sample.assembly) Hrun)
    as (_ & _ & _ & Hfull & Hsend).
  split; [exact Hfull |].
  destruct (Hsend [] []) as (added & Hsent & Hposts & _).
  exists added. split; [exact Hsent | exact Hposts].
Defined.

(** A started build without sourcestamps: the payload is assembled, with
    no attachments, and nothing is posted. *)
Example started_build_without_sourcestamps :
  let build :=
    {| buildid := 8;
       builder := {| name := "unit-tests" |};
       buildset := {| sourcestamps := []; parent_buildid := None;
                      parent_relationship := None |};
       complete := false;
       results := None;
       url := "http://ci.example/#/builders/1/builds/8" |} in
  exists postData tr,
    getBuildDetailsAndSendMessage Sample.env Sample.self build []
      = (Ok (build, postData), tr) /\
    postData !! "text" = Some (PStr "Buildbot started build unit-tests") /\
    postData !! "attachments" = None /\
    postData !! "icon_emoji" = Some (PStr ":facepalm:") /\
    sendMessage Sample.env Sample.self [ {| builds := [build] |} ] []
      = (Ok tt, tr) /\
    posts tr = [].
Proof.
  intros build.
  pose (assembly := getBuildDetailsAndSendMessage Sample.env Sample.self build []).
  exists (match fst assembly with
          | Ok bp => snd bp
          | Raise _ => (∅ : gmap string PostValue)
          end), (snd assembly).
  repeat split.
Qed.

(** C8.  A reporter configured with channel "#ci" and username
    "buildbot" returns, for the sample build, a payload whose [channel]
    is "#ci" and which has no [username] key, nor any key besides
    [attachments], [text], [channel] and [icon_emoji]: the configured
    username is stored by [reconfigService] and never read. *)
Theorem username_override_not_applied :
  channel Sample.self = Some "#ci" /\
  username Sample.self = Some "buildbot" /\
  exists postData tr1,
    getBuildDetailsAndSendMessage Sample.env Sample.self Sample.build []
      = (Ok (Sample.build, postData), tr1) /\
    postData !! "channel" = Some (PStr "#ci") /\
    postData !! "username" = None /\
    (forall k,
       k ∉ ["attachments"; "text"; "channel"; "icon_emoji"]%string ->
       postData !! k = None).
Proof.
  split; [reflexivity |]. split; [reflexivity |].
  pose (assembly := getBuildDetailsAndSendMessage Sample.env Sample.self
                                                   Sample.build []).
  pose (postData := match fst assembly with
                    | Ok bp => snd bp
                    | Raise _ => (∅ : gmap string PostValue)
                    end).
  assert (assembly = (Ok (Sample.build, postData), snd assembly)) as Hrun
    by reflexivity.
  exists postData, (snd assembly). split; [exact Hrun |].
  destruct (payload_keys Sample.env Sample.self Sample.build [] Sample.build
              postData (snd assembly) Hrun) as (_ & _ & Hchannel & Hother).
  split; [exact Hchannel |]. split; [| exact Hother].
  apply Hother. rewrite !not_elem_of_cons.
  by repeat split; try apply not_elem_of_nil.
Qed.

(** ** Configuration checks *)

#[local] Set Warnings "-clear-no-such-hyp".











(** ** The deprecated host URL *)











(** ** More on attachments *)

Lemma append_assoc (s1 s2 s3 : string) :
  (s1 +:+ s2) +:+ s3 = s1 +:+ (s2 +:+ s3).
Proof.
  induction s1 as [| a s1 IH]; [done |].
  change (String a ((s1 +:+ s2) +:+ s3) = String a (s1 +:+ (s2 +:+ s3))).
  by rewrite IH.
Qed.

Lemma append_empty_r (s : string) : s +:+ "" = s.
Proof.
  induction s as [| a s IH]; [done |].
  change (String a (s +:+ "") = String a s). by rewrite IH.
Qed.

Section MoreAttachments.

Context (env : Env) (build : Build).

Lemma attachment_for_shape sourcestamp tr a tr' :
  attachment_for env build sourcestamp tr = (Ok a, tr') ->
  Attachment.title a = attachment_title build sourcestamp /\
  Attachment.title_link a = url build /\
  Attachment.fallback a
    = attachment_title build sourcestamp +:+ ": <" +:+ url build +:+ ">" /\
  Attachment.text a = "Status: *" +:+ statusToString (results build) +:+ "*" /\
  Attachment.color a = status_color (results build) /\
  Attachment.mrkdwn_in a = ["text"; "title"; "fallback"]%string.
Proof.
  unfold attachment_for, bind, ret.
  destruct (attachment_fields env build sourcestamp tr) as [[fields | e] t];
    [| discriminate].
  intros H. injection H as <- <-. by repeat split.
Qed.

Lemma attachment_for_fields sourcestamp tr a tr' :
  attachment_for env build sourcestamp tr = (Ok a, tr') ->
  Attachment.fields a = [] \/
  exists users, Attachment.fields a = fields_for sourcestamp users.
Proof.
  intros Hrun. destruct (sub_build build) eqn:Hsub.
  - destruct (attachment_for_sub_build env build sourcestamp tr Hsub)
      as (a' & Ha' & Hf).
    rewrite Ha' in Hrun. injection Hrun as <- <-. by left.
  - pose proof (attachment_for_top_build env build sourcestamp tr Hsub) as Hone.
    destruct (getResponsibleUsersForBuild env tr (buildid build))
      as [users | e].
    + destruct Hone as (a' & Ha' & Hf).
      rewrite Ha' in Hrun. injection Hrun as <- <-. right. by exists users.
    + rewrite Hone in Hrun. discriminate Hrun.
Qed.

Lemma getAttachments_loop_inv todo acc tr atts tr' :
  getAttachments_loop env build todo acc tr = (Ok atts, tr') ->
  exists new,
    atts = acc ++ new /\
    Forall2 (fun sourcestamp a =>
               exists t t', attachment_for env build sourcestamp t = (Ok a, t'))
            todo new.
Proof.
  revert acc tr. induction todo as [| sourcestamp rest IH]; intros acc tr Hrun.
  - cbn in Hrun. injection Hrun as <- <-. exists []. by rewrite app_nil_r.
  - cbn [getAttachments_loop] in Hrun. unfold bind at 1 in Hrun.
    destruct (attachment_for env build sourcestamp tr) as [[a | e] t] eqn:Ha;
      [| discriminate Hrun].
    destruct (IH _ _ Hrun) as (new & -> & Hall).
    exists (a :: new). split; [by rewrite <- app_assoc |].
    constructor; [by exists tr, t | exact Hall].
Qed.

Lemma getAttachments_loop_raises todo acc tr e tr' :
  getAttachments_loop env build todo acc tr = (Raise e, tr') ->
  sub_build build = false /\
  exists k,
    (k < length todo)%nat /\
    tr' = tr ++ replicate (S k) (CallGetResponsibleUsers (buildid build)) /\
    getResponsibleUsersForBuild env
      (tr ++ replicate k (CallGetResponsibleUsers (buildid build)))
      (buildid build) = Raise e /\
    (forall j, (j < k)%nat ->
       exists users,
         getResponsibleUsersForBuild env
           (tr ++ replicate j (CallGetResponsibleUsers (buildid build)))
           (buildid build) = Ok users).
Proof.
  intros Hrun. destruct (sub_build build) eqn:Hsub.
  { destruct (getAttachments_loop_sub_build env build todo acc tr Hsub)
      as (new & Hok & _).
    rewrite Hok in Hrun. discriminate Hrun. }
  split; [done |]. revert acc tr Hrun.
  induction todo as [| sourcestamp rest IH]; intros acc tr Hrun;
    [discriminate Hrun |].
  cbn [getAttachments_loop] in Hrun.
  pose proof (attachment_for_top_build env build sourcestamp tr Hsub) as Hone.
  destruct (getResponsibleUsersForBuild env tr (buildid build))
    as [users | e0] eqn:Hlook.
  - destruct Hone as (a & Ha & _).
    rewrite (bind_Ok _ _ _ _ _ Ha) in Hrun.
    destruct (IH _ _ Hrun) as (k & Hk & -> & Hfail & Hbefore).
    exists (S k). split; [cbn; lia |]. split; [| split].
    + by rewrite <- app_assoc.
    + by rewrite <- app_assoc in Hfail.
    + intros [| j] Hj.
      * exists users. cbn. by rewrite app_nil_r.
      * destruct (Hbefore j ltac:(lia)) as (us & Hus).
        exists us. by rewrite <- app_assoc in Hus.
  - rewrite (bind_Raise _ _ _ _ _ Hone) in Hrun. injection Hrun as <- <-.
    exists 0%nat. split; [cbn; lia |]. split; [done |]. split.
    + cbn. by rewrite app_nil_r.
    + intros j Hj. lia.
Qed.

End MoreAttachments.

(** X5.  Whatever the build, sub-build or not, the attachments that
    [getAttachments] returns are one per sourcestamp, in the order of
    the sourcestamps.  Each has the title of its sourcestamp, which
    begins with "Build #" and the build id; all of them link to the
    build URL, carry the same status line and color, declare the same
    three mark-down fields, and have the title and the bracketed URL as
    fallback. *)
Theorem attachments_follow_sourcestamps env build tr atts tr' :
  getAttachments env build tr = (Ok atts, tr') ->
  length atts = length (sourcestamps (buildset build)) /\
  Forall2
    (fun sourcestamp a =>
       Attachment.title a = attachment_title build sourcestamp /\
       (exists rest,
          Attachment.title a = "Build #" +:+ pretty (buildid build) +:+ rest) /\
       Attachment.title_link a = url build /\
       Attachment.fallback a
         = Attachment.title a +:+ ": <" +:+ url build +:+ ">" /\
       Attachment.text a
         = "Status: *" +:+ statusToString (results build) +:+ "*" /\
       Attachment.color a = status_color (results build) /\
       Attachment.mrkdwn_in a = ["text"; "title"; "fallback"]%string)
    (sourcestamps (buildset build)) atts.
Proof.
  intros Hrun.
  destruct (getAttachments_loop_inv env build _ _ _ _ _ Hrun)
    as (new & -> & Hall).
  cbn [app]. split; [symmetry; by eapply Forall2_length |].
  eapply Forall2_impl; [exact Hall |].
  intros sourcestamp a (t & t' & Ha).
  destruct (attachment_for_shape env build sourcestamp t a t' Ha)
    as (Htitle & Hlink & Hfall & Htext & Hcolor & Hmk).
  rewrite Htitle. repeat split; try done.
  unfold attachment_title.
  destruct (truthy_text (project sourcestamp)), (sub_build build);
    eexists; rewrite ?append_assoc; try reflexivity.
  by rewrite append_empty_r.
Qed.

(** An instance: the two attachments of the sample build with two
    sourcestamps. *)
Lemma attachments_follow_sourcestamps_witness :
  exists a1 a2 tr',
    getAttachments Sample.env Sample.two_stamps [] = (Ok [a1; a2], tr') /\
    Attachment.title a1 = "Build #7" /\
    Attachment.title a2 = "Build #7 for docs None" /\
    Attachment.title_link a2 = "http://ci.example/#/builders/1/builds/7" /\
    Attachment.fallback a2
      = "Build #7 for docs None: <http://ci.example/#/builders/1/builds/7>".
Proof.
  eexists _, _, _. split; [reflexivity |].
  match goal with
  | |- Attachment.title ?x = _ /\ Attachment.title ?y = _ /\ _ =>
      destruct (attachments_follow_sourcestamps Sample.env Sample.two_stamps []
                  [x; y] _ eq_refl) as (_ & Hall)
  end.
  apply Forall2_cons_1 in Hall as ((Ht1 & _) & Hall).
  apply Forall2_cons_1 in Hall as ((Ht2 & _ & Hlink & Hfall & _) & _).
  split; [exact Ht1 |]. split; [exact Ht2 |].
  split; [exact Hlink | exact Hfall].
Defined.

Lemma fields_for_titles sourcestamp users :
  sublist (Field.title <$> fields_for sourcestamp users)
          ["Branch"; "Repository"; "Commiters"]%string /\
  Forall (fun f => Field.short f = true) (fields_for sourcestamp users).
Proof.
  unfold fields_for, short_field.
  destruct (truthy_str (branch sourcestamp)),
           (truthy_text (repository sourcestamp)), (truthy_list users);
    (split;
     [ cbn;
       repeat first [apply sublist_nil | apply sublist_skip | apply sublist_cons]
     | repeat constructor ]).
Qed.

(** X6.  In every attachment that [getAttachments] returns, the field
    titles form a sub-sequence of Branch, Repository, Commiters: there
    are at most three fields, each title occurs at most once, and they
    come in this order; every field is marked short. *)
Theorem attachment_fields_ordered env build tr atts tr' :
  getAttachments env build tr = (Ok atts, tr') ->
  Forall
    (fun a =>
       sublist (Field.title <$> Attachment.fields a)
               ["Branch"; "Repository"; "Commiters"]%string /\
       (length (Attachment.fields a) <= 3)%nat /\
       NoDup (Field.title <$> Attachment.fields a) /\
       Forall (fun f => Field.short f = true) (Attachment.fields a))
    atts.
Proof.
  intros Hrun.
  destruct (getAttachments_loop_inv env build _ _ _ _ _ Hrun)
    as (new & -> & Hall).
  cbn [app]. eapply Forall2_Forall_r; [exact Hall |].
  apply Forall_forall. intros sourcestamp _ a (t & t' & Ha).
  assert (sublist (Field.title <$> Attachment.fields a)
                  ["Branch"; "Repository"; "Commiters"]%string /\
          Forall (fun f => Field.short f = true) (Attachment.fields a))
    as (Hsub & Hshort).
  { destruct (attachment_for_fields env build sourcestamp t a t' Ha)
      as [-> | (users & ->)].
    - split; [apply sublist_nil_l | constructor].
    - apply fields_for_titles. }
  split; [exact Hsub |]. split; [| split; [| exact Hshort]].
  - apply sublist_length in Hsub. by rewrite length_fmap in Hsub.
  - eapply sublist_NoDup; [| exact Hsub].
    repeat (apply NoDup_cons; split; [set_solver |]). apply NoDup_nil_2.
Qed.

(** An instance: the two attachments of the sample build with two
    sourcestamps. *)
Lemma attachment_fields_ordered_witness :
  exists atts tr',
    getAttachments Sample.env Sample.two_stamps [] = (Ok atts, tr') /\
    Forall
      (fun a =>
         sublist (Field.title <$> Attachment.fields a)
                 ["Branch"; "Repository"; "Commiters"]%string /\
         (length (Attachment.fields a) <= 3)%nat /\
         NoDup (Field.title <$> Attachment.fields a) /\
         Forall (fun f => Field.short f = true) (Attachment.fields a))
      atts.
Proof.
  eexists _, _. split; [reflexivity |].
  by eapply (attachment_fields_ordered Sample.env Sample.two_stamps []).
Defined.

Lemma getAttachments_raises env build tr e tr' :
  getAttachments env build tr = (Raise e, tr') ->
  sub_build build = false /\
  exists k,
    (k < length (sourcestamps (buildset build)))%nat /\
    tr' = tr ++ replicate (S k) (CallGetResponsibleUsers (buildid build)) /\
    getResponsibleUsersForBuild env
      (tr ++ replicate k (CallGetResponsibleUsers (buildid build)))
      (buildid build) = Raise e /\
    (forall j, (j < k)%nat ->
       exists users,
         getResponsibleUsersForBuild env
           (tr ++ replicate j (CallGetResponsibleUsers (buildid build)))
           (buildid build) = Ok users).
Proof. apply getAttachments_loop_raises. Qed.

(** X7.  [getAttachments] raises only for a build that is not a
    sub-build, and then it raises what the responsible-users lookup
    raised: the lookups before the failing one all answered, the failing
    one is the last call made, and no attachment is returned. *)
Theorem getAttachments_stops_at_failed_lookup env build tr e tr' :
  getAttachments env build tr = (Raise e, tr') ->
  sub_build build = false /\
  exists k,
    (k < length (sourcestamps (buildset build)))%nat /\
    tr' = tr ++ replicate (S k) (CallGetResponsibleUsers (buildid build)) /\
    getResponsibleUsersForBuild env
      (tr ++ replicate k (CallGetResponsibleUsers (buildid build)))
      (buildid build) = Raise e /\
    (forall j, (j < k)%nat ->
       exists users,
         getResponsibleUsersForBuild env
           (tr ++ replicate j (CallGetResponsibleUsers (buildid build)))
           (buildid build) = Ok users).
Proof. apply getAttachments_raises. Qed.

(** An instance: the lookup fails at the second of two sourcestamps. *)
Lemma getAttachments_stops_at_failed_lookup_witness :
  getAttachments Faulty.env_second_lookup Sample.two_stamps []
    = (Raise (Error "database gone"),
       [CallGetResponsibleUsers 7; CallGetResponsibleUsers 7]) /\
  sub_build Sample.two_stamps = false.
Proof.
  split; [reflexivity |].
  apply (getAttachments_stops_at_failed_lookup Faulty.env_second_lookup
           Sample.two_stamps [] (Error "database gone")
           [CallGetResponsibleUsers 7; CallGetResponsibleUsers 7]).
  reflexivity.
Defined.

(** ** More on payload assembly *)

Lemma getAttachments_length env build tr atts tr' :
  getAttachments env build tr = (Ok atts, tr') ->
  length atts = length (sourcestamps (buildset build)).
Proof.
  intros Hrun.
  destruct (getAttachments_loop_inv env build _ _ _ _ _ Hrun)
    as (new & -> & Hall).
  cbn [app]. symmetry. by eapply Forall2_length.
Qed.

Lemma getAttachments_loop_trace env build todo acc tr atts tr' :
  getAttachments_loop env build todo acc tr = (Ok atts, tr') ->
  tr' = tr ++ replicate (if sub_build build then 0%nat else length todo)
                        (CallGetResponsibleUsers (buildid build)).
Proof.
  destruct (sub_build build) eqn:Hsub.
  - intros Hrun.
    destruct (getAttachments_loop_sub_build env build todo acc tr Hsub)
      as (new & Hok & _).
    rewrite Hok in Hrun. injection Hrun as _ <-. cbn. by rewrite app_nil_r.
  - revert acc tr. induction todo as [| sourcestamp rest IH]; intros acc tr Hrun.
    + cbn in Hrun. injection Hrun as _ <-. cbn. by rewrite app_nil_r.
    + cbn [getAttachments_loop] in Hrun.
      pose proof (attachment_for_top_build env build sourcestamp tr Hsub) as Hone.
      destruct (getResponsibleUsersForBuild env tr (buildid build))
        as [users | e].
      * destruct Hone as (a & Ha & _).
        rewrite (bind_Ok _ _ _ _ _ Ha) in Hrun.
        rewrite (IH _ _ Hrun). by rewrite <- app_assoc.
      * rewrite (bind_Raise _ _ _ _ _ Hone) in Hrun. discriminate Hrun.
Qed.

Lemma assembly_raises env self build tr e tr1 :
  getBuildDetailsAndSendMessage env self build tr = (Raise e, tr1) ->
  (getDetailsForBuild env tr build = Raise e /\
   tr1 = tr ++ [CallGetDetails build]) \/
  (exists build',
     getDetailsForBuild env tr build = Ok build' /\
     attachments self = true /\
     getAttachments env build' (tr ++ [CallGetDetails build]) = (Raise e, tr1)).
Proof.
  intros Hrun.
  destruct (getDetailsForBuild env tr build) as [build' | e0] eqn:Hdetails.
  - right. exists build'. split; [done |].
    destruct (attachments self) eqn:Hflag.
    + split; [done |].
      destruct (getAttachments env build' (tr ++ [CallGetDetails build]))
        as [[atts | e1] t] eqn:Hatts.
      * rewrite (assembly_with_attachments _ _ _ _ _ _ _ Hflag Hdetails Hatts)
          in Hrun.
        discriminate Hrun.
      * unfold getBuildDetailsAndSendMessage, call_getDetailsForBuild, call
          in Hrun.
        unfold bind in Hrun. rewrite Hdetails, Hflag, Hatts in Hrun.
        by injection Hrun as <- <-.
    + rewrite (assembly_without_attachments _ _ _ _ _ Hflag Hdetails) in Hrun.
      discriminate Hrun.
  - left.
    unfold getBuildDetailsAndSendMessage, call_getDetailsForBuild, call in Hrun.
    unfold bind in Hrun. rewrite Hdetails in Hrun.
    by injection Hrun as <- <-.
Qed.

(** X8.  With the attachments display enabled and a build that has no
    sourcestamp, the payload is assembled without an [attachments] key
    and with the primary text alone: the build URL is neither in an
    attachment nor in the text.  [sendMessage] then posts nothing. *)
Theorem no_sourcestamps_no_link env self build rest more tr build' :
  attachments self = true ->
  getDetailsForBuild env tr build = Ok build' ->
  sourcestamps (buildset build') = [] ->
  (exists postData,
     getBuildDetailsAndSendMessage env self build tr
       = (Ok (build', postData), tr ++ [CallGetDetails build]) /\
     postData !! "attachments" = None /\
     postData !! "text" = Some (PStr (getMessage build'))) /\
  sendMessage env self ({| builds := build :: rest |} :: more) tr
    = (Ok tt, tr ++ [CallGetDetails build]).
Proof.
  intros Hon Hdetails Hnone.
  assert (getAttachments env build' (tr ++ [CallGetDetails build])
          = (Ok [], tr ++ [CallGetDetails build])) as Hatts.
  { unfold getAttachments. by rewrite Hnone. }
  pose proof (assembly_with_attachments _ _ _ _ _ _ _ Hon Hdetails Hatts)
    as Hrun.
  split.
  - eexists. split; [exact Hrun |]. split; [| apply assembled_text].
    by rewrite assembled_other.
  - rewrite sendMessage_first, (bind_Ok _ _ _ _ _ Hrun). cbn [fst snd].
    rewrite assembled_not_empty, Hnone. reflexivity.
Qed.

(** An instance: the sample build without sourcestamps. *)
Lemma no_sourcestamps_no_link_witness :
  sendMessage Sample.env Sample.self [ {| builds := [Faulty.no_stamps] |} ] []
    = (Ok tt, [CallGetDetails Faulty.no_stamps]).
Proof.
  apply (no_sourcestamps_no_link Sample.env Sample.self Faulty.no_stamps [] []
           [] Faulty.no_stamps); reflexivity.
Defined.

(** X9.  When the enrichment call raises, [getBuildDetailsAndSendMessage]
    and [sendMessage] raise the same exception right after that call:
    no lookup is made, nothing is logged and nothing is posted. *)
Theorem enrichment_failure_aborts env self build rest more tr e :
  getDetailsForBuild env tr build = Raise e ->
  getBuildDetailsAndSendMessage env self build tr
    = (Raise e, tr ++ [CallGetDetails build]) /\
  sendMessage env self ({| builds := build :: rest |} :: more) tr
    = (Raise e, tr ++ [CallGetDetails build]).
Proof.
  intros Hdetails.
  assert (getBuildDetailsAndSendMessage env self build tr
          = (Raise e, tr ++ [CallGetDetails build])) as Hrun.
  { unfold getBuildDetailsAndSendMessage, call_getDetailsForBuild, call.
    unfold bind. by rewrite Hdetails. }
  split; [exact Hrun |].
  by rewrite sendMessage_first, (bind_Raise _ _ _ _ _ Hrun).
Qed.

(** An instance: the controller does not know the build. *)
Lemma enrichment_failure_aborts_witness :
  sendMessage Faulty.env_no_details Sample.self
              [ {| builds := [Sample.build] |} ] []
    = (Raise (Error "no such build"), [CallGetDetails Sample.build]).
Proof.
  apply (enrichment_failure_aborts Faulty.env_no_details Sample.self
           Sample.build [] [] [] (Error "no such build")).
  reflexivity.
Defined.

Lemma posts_replicate_lookups n id :
  posts (replicate n (CallGetResponsibleUsers id)) = [].
Proof. induction n as [| n IH]; [done |]. exact IH. Qed.

Lemma logged_app tr1 tr2 : logged (tr1 ++ tr2) = logged tr1 ++ logged tr2.
Proof. apply omap_app. Qed.

Lemma logged_replicate_lookups n id :
  logged (replicate n (CallGetResponsibleUsers id)) = [].
Proof. induction n as [| n IH]; [done |]. exact IH. Qed.

Lemma sendMessage_returns_after_assembly env self build rest more tr build'
    postData tr1 :
  getBuildDetailsAndSendMessage env self build tr = (Ok (build', postData), tr1) ->
  exists added,
    sendMessage env self ({| builds := build :: rest |} :: more) tr
      = (Ok tt, tr1 ++ added).
Proof.
  intros Hrun. rewrite sendMessage_first, (bind_Ok _ _ _ _ _ Hrun).
  cbn [fst snd]. destruct (dict_is_empty postData).
  - exists []. by rewrite app_nil_r.
  - destruct (for_each_post_attempt env self postData
                (sourcestamps (buildset build')) tr1) as (added & Hloop & _).
    by exists added.
Qed.

(** X10.  [sendMessage] raises only before the delivery loop: whenever
    it raises, no request has been posted and no line has been logged.
    The exception is the [IndexError] of a reports list without a first
    build, or the one raised by the enrichment call, or the one raised by
    a responsible-users lookup for a build that is not a sub-build while
    the attachments display is enabled. *)
Theorem sendMessage_raises_before_posting env self reports tr e tr' :
  sendMessage env self reports tr = (Raise e, tr') ->
  posts tr' = posts tr /\
  logged tr' = logged tr /\
  ((e = IndexError /\ ~ has_first_build reports /\ tr' = tr) \/
   (exists build rest more,
      reports = {| builds := build :: rest |} :: more /\
      getDetailsForBuild env tr build = Raise e /\
      tr' = tr ++ [CallGetDetails build]) \/
   (exists build rest more build' t,
      reports = {| builds := build :: rest |} :: more /\
      getDetailsForBuild env tr build = Ok build' /\
      attachments self = true /\
      sub_build build' = false /\
      getResponsibleUsersForBuild env t (buildid build') = Raise e)).
Proof.
  intros Hrun.
  destruct reports as [| [[| build rest]] more].
  - injection Hrun as <- <-. split; [done |]. split; [done |]. left.
    split; [done |]. split; [| done]. intros (b & r & m & Heq). discriminate Heq.
  - injection Hrun as <- <-. split; [done |]. split; [done |]. left.
    split; [done |]. split; [| done]. intros (b & r & m & Heq). discriminate Heq.
  - destruct (getBuildDetailsAndSendMessage env self build tr)
      as [[[build' postData] | e0] tr1] eqn:Hassembly.
    + destruct (sendMessage_returns_after_assembly env self build rest more
                  tr build' postData tr1 Hassembly) as (added & Hok).
      rewrite Hok in Hrun. discriminate Hrun.
    + rewrite sendMessage_first, (bind_Raise _ _ _ _ _ Hassembly) in Hrun.
      injection Hrun as <- <-.
      destruct (assembly_raises _ _ _ _ _ _ Hassembly)
        as [(Hdetails & ->) | (build' & Hdetails & Hon & Hatts)].
      * split; [by rewrite posts_app, app_nil_r |].
        split; [by rewrite logged_app, app_nil_r |].
        right. left. by exists build, rest, more.
      * destruct (getAttachments_raises
                    env build' _ _ _ Hatts)
          as (Hsub & k & _ & -> & Hfail & _).
        split;
          [by rewrite !posts_app, posts_replicate_lookups, !app_nil_r |].
        split;
          [by rewrite !logged_app, logged_replicate_lookups, !app_nil_r |].
        right. right.
        exists build, rest, more, build',
          ((tr ++ [CallGetDetails build])
             ++ replicate k (CallGetResponsibleUsers (buildid build'))).
        by repeat split.
Qed.

(** An instance: the lookup fails at the second sourcestamp. *)
Lemma sendMessage_raises_before_posting_witness :
  sendMessage Faulty.env_second_lookup Sample.self
              [ {| builds := [Sample.two_stamps] |} ] []
    = (Raise (Error "database gone"),
       [CallGetDetails Sample.two_stamps;
        CallGetResponsibleUsers 7; CallGetResponsibleUsers 7]) /\
  posts [CallGetDetails Sample.two_stamps;
         CallGetResponsibleUsers 7; CallGetResponsibleUsers 7] = [] /\
  logged [CallGetDetails Sample.two_stamps;
          CallGetResponsibleUsers 7; CallGetResponsibleUsers 7] = [].
Proof.
  split; [reflexivity |].
  destruct (sendMessage_raises_before_posting Faulty.env_second_lookup
              Sample.self [ {| builds := [Sample.two_stamps] |} ] []
              (Error "database gone")
              [CallGetDetails Sample.two_stamps;
               CallGetResponsibleUsers 7; CallGetResponsibleUsers 7]
              eq_refl) as (Hposts & Hlogged & _).
  split; [exact Hposts | exact Hlogged].
Defined.

Lemma dom_assembled self build text (base : gmap string PostValue) :
  dom (assembled self build text base)
    = {["text"]} ∪ {["icon_emoji"]}
      ∪ (if truthy_str (channel self) then {["channel"]} else ∅)
      ∪ dom base.
Proof.
  unfold assembled. destruct (truthy_str (channel self));
    rewrite !dom_insert_L; set_solver.
Qed.

(** X11.  The keys of a returned payload are exactly: [text] and
    [icon_emoji]; [channel] when the configured channel is a non-empty
    string; and [attachments] when the display is enabled and the build
    has at least one sourcestamp.  So a payload has two, three or four
    keys. *)
Theorem payload_key_set env self build tr build' postData tr1 :
  getBuildDetailsAndSendMessage env self build tr = (Ok (build', postData), tr1) ->
  dom postData
    = {["text"]} ∪ {["icon_emoji"]}
      ∪ (if truthy_str (channel self) then {["channel"]} else ∅)
      ∪ (if attachments self && truthy_list (sourcestamps (buildset build'))
         then {["attachments"]} else ∅) /\
  (2 <= size postData <= 4)%nat.
Proof.
  intros Hrun.
  destruct (assembly_inv _ _ _ _ _ _ _ Hrun) as (_ & text & base & -> & Hbase).
  assert (dom base
          = if attachments self && truthy_list (sourcestamps (buildset build'))
            then {["attachments"]} else (∅ : gset string)) as Hdom.
  { destruct Hbase as [(-> & -> & _) | (-> & _ & atts & Hatts & ->)].
    - by rewrite dom_empty_L.
    - apply getAttachments_length in Hatts. cbn [andb].
      destruct atts, (sourcestamps (buildset build')); try discriminate Hatts;
        cbn [truthy_list]; by rewrite ?dom_empty_L, ?dom_singleton_L. }
  assert (dom (assembled self build' text base)
          = {["text"]} ∪ {["icon_emoji"]}
            ∪ (if truthy_str (channel self) then {["channel"]} else ∅)
            ∪ (if attachments self && truthy_list (sourcestamps (buildset build'))
               then {["attachments"]} else ∅)) as Hkeys
    by (by rewrite dom_assembled, Hdom).
  split; [exact Hkeys |].
  rewrite <- size_dom, Hkeys.
  destruct (truthy_str (channel self)),
           (attachments self && truthy_list (sourcestamps (buildset build')));
    rewrite ?(right_id_L ∅ (∪));
    rewrite ?size_union, ?size_singleton by set_solver; lia.
Qed.

(** An instance: the sample build, with channel and attachments. *)
Lemma payload_key_set_witness :
  dom Sample.payload
    = {["text"]} ∪ {["icon_emoji"]} ∪ {["channel"]} ∪ {["attachments"]} /\
  (2 <= size Sample.payload <= 4)%nat.
Proof.
  apply (payload_key_set Sample.env_down Sample.self Sample.two_stamps []
           Sample.two_stamps Sample.payload (snd Sample.assembly)).
  reflexivity.
Defined.

Lemma assembly_trace env self build tr build' postData tr1 :
  getBuildDetailsAndSendMessage env self build tr = (Ok (build', postData), tr1) ->
  tr1 = tr ++ CallGetDetails build
              :: replicate
                   (if attachments self && negb (sub_build build')
                    then length (sourcestamps (buildset build')) else 0%nat)
                   (CallGetResponsibleUsers (buildid build')).
Proof.
  intros Hrun.
  destruct (assembly_inv _ _ _ _ _ _ _ Hrun) as (_ & text & base & _ & Hbase).
  destruct Hbase as [(-> & _ & _ & ->) | (-> & _ & atts & Hatts & _)];
    [done |].
  apply getAttachments_loop_trace in Hatts as ->. cbn [andb].
  rewrite <- app_assoc. by destruct (sub_build build').
Qed.

(** X12.  The calls of a successful assembly are the enrichment call
    followed, when the display is enabled and the build is not a
    sub-build, by one responsible-users lookup per sourcestamp, and
    nothing else: assembling a payload logs nothing and posts nothing. *)
Theorem assembly_calls env self build tr build' postData tr1 :
  getBuildDetailsAndSendMessage env self build tr = (Ok (build', postData), tr1) ->
  tr1 = tr ++ CallGetDetails build
              :: replicate
                   (if attachments self && negb (sub_build build')
                    then length (sourcestamps (buildset build')) else 0%nat)
                   (CallGetResponsibleUsers (buildid build')) /\
  posts tr1 = posts tr /\
  logged tr1 = logged tr.
Proof.
  intros Hrun. rewrite (assembly_trace _ _ _ _ _ _ _ Hrun) at 2 3.
  split; [by apply assembly_trace in Hrun |].
  rewrite posts_app, logged_app. cbn.
  by rewrite posts_replicate_lookups, logged_replicate_lookups, !app_nil_r.
Qed.

(** An instance: the sample build with two sourcestamps. *)
Lemma assembly_calls_witness :
  snd Sample.assembly
    = [CallGetDetails Sample.two_stamps;
       CallGetResponsibleUsers 7; CallGetResponsibleUsers 7] /\
  posts (snd Sample.assembly) = [] /\
  logged (snd Sample.assembly) = [].
Proof.
  apply (assembly_calls Sample.env_down Sample.self Sample.two_stamps []
           Sample.two_stamps Sample.payload (snd Sample.assembly)).
  reflexivity.
Defined.

(** ** The log of the delivery loop *)

Lemma errors_app tr1 tr2 : errors (tr1 ++ tr2) = errors tr1 ++ errors tr2.
Proof. unfold errors. by rewrite logged_app, List.filter_app. Qed.

Lemma contents_app tr1 tr2 : contents (tr1 ++ tr2) = contents tr1 ++ contents tr2.
Proof. apply omap_app. Qed.

Lemma enrichments_app tr1 tr2 :
  enrichments (tr1 ++ tr2) = enrichments tr1 ++ enrichments tr2.
Proof. apply omap_app. Qed.

Lemma post_attempt_log env self postData sourcestamp tr :
  exists added,
    post_attempt env self postData sourcestamp tr = (Ok tt, tr ++ added) /\
    List.filter (fun r => negb (is_error r)) (logged added)
      = logged (announce self sourcestamp) /\
    lookups added = [] /\
    enrichments added = [] /\
    (length (contents added) <= length (errors added) <= 1)%nat /\
    ((exists response,
        answer env self postData sourcestamp tr = Ok response /\
        code response = 200) ->
     errors added = [] /\ contents added = []) /\
    ((forall response,
        answer env self postData sourcestamp tr = Ok response ->
        code response <> 200) ->
     length (errors added) = 1%nat).
Proof.
  rewrite post_attempt_unfold. unfold announce.
  destruct (answer env self postData sourcestamp tr) as [response | e].
  - destruct (code response =? 200) eqn:Hcode; cbn [negb].
    + apply Z.eqb_eq in Hcode.
      eexists. split; [reflexivity |].
      destruct (revision sourcestamp); cbn; repeat split; try done; try lia.
      all: intros Hnever; destruct (Hnever response eq_refl Hcode).
    + apply Z.eqb_neq in Hcode.
      destruct (content response) as [body | e];
        (eexists; split; [reflexivity |]);
        destruct (revision sourcestamp); cbn; repeat split; try done; try lia.
      all: match goal with
           | H : exists _, _ |- _ => destruct H as (r & Hr & H200)
           end; injection Hr as <-; by destruct Hcode.
  - eexists. split; [reflexivity |].
    destruct (revision sourcestamp); cbn; repeat split; try done; try lia.
    all: match goal with
         | H : exists _, _ |- _ => destruct H as (r & Hr & _)
         end; discriminate Hr.
Qed.

Lemma for_each_log env self postData stamps tr :
  exists added,
    for_each (post_attempt env self postData) stamps tr = (Ok tt, tr ++ added) /\
    List.filter (fun r => negb (is_error r)) (logged added)
      = logged (concat (announce self <$> stamps)) /\
    lookups added = [] /\
    enrichments added = [] /\
    (length (contents added) <= length (errors added) <= length stamps)%nat /\
    ((forall t ep d,
        exists response, http_post env t ep d = Ok response /\
                         code response = 200) ->
     errors added = [] /\ contents added = []) /\
    ((forall t ep d response,
        http_post env t ep d = Ok response -> code response <> 200) ->
     length (errors added) = length stamps).
Proof.
  revert tr. induction stamps as [| sourcestamp rest IH]; intros tr.
  - exists []. cbn. rewrite app_nil_r. repeat split; try done; lia.
  - destruct (post_attempt_log env self postData sourcestamp tr)
      as (a1 & Hrun1 & Hinfo1 & Hlook1 & Henr1 & Hbound1 & Hok1 & Hfail1).
    destruct (IH (tr ++ a1))
      as (a2 & Hrun2 & Hinfo2 & Hlook2 & Henr2 & Hbound2 & Hok2 & Hfail2).
    exists (a1 ++ a2). split; [| split; [| split; [| split; [| split; [| split]]]]].
    + cbn [for_each]. rewrite (bind_Ok _ _ _ _ _ Hrun1), Hrun2.
      by rewrite app_assoc.
    + rewrite logged_app, List.filter_app, Hinfo1, Hinfo2.
      cbn [fmap list_fmap concat]. by rewrite logged_app.
    + by rewrite lookups_app, Hlook1, Hlook2.
    + by rewrite enrichments_app, Henr1, Henr2.
    + rewrite contents_app, errors_app, !length_app. cbn [length]. lia.
    + intros Hall. rewrite errors_app, contents_app.
      destruct (Hok1 (Hall _ _ _)) as (-> & ->).
      by destruct (Hok2 Hall) as (-> & ->).
    + intros Hnever. rewrite errors_app, length_app.
      rewrite (Hfail2 Hnever), Hfail1; [done |].
      intros response. apply Hnever.
Qed.

(** X13.  The delivery loop logs, for each sourcestamp in turn, the line
    about a missing revision when the sourcestamp has none, and then the
    line that announces the request; besides error lines it logs nothing
    else.  It makes no enrichment call and no responsible-users
    lookup. *)
Theorem dispatch_announces_each_attempt env self postData stamps tr :
  exists added,
    dispatch env self postData stamps tr = (Ok tt, tr ++ added) /\
    List.filter (fun r => negb (is_error r)) (logged added)
      = concat ((fun sourcestamp =>
                   match revision sourcestamp with
                   | None => [info_no_revision; info_posting (endpoint self)]
                   | Some _ => [info_posting (endpoint self)]
                   end) <$> stamps) /\
    lookups added = [] /\
    enrichments added = [].
Proof.
  destruct (for_each_log env self postData stamps tr)
    as (added & Hrun & Hinfo & Hlook & Henr & _).
  exists added. split; [exact Hrun |]. split; [| by split].
  rewrite Hinfo. clear.
  induction stamps as [| sourcestamp rest IH]; [done |].
  cbn [fmap list_fmap concat]. rewrite logged_app.
  change (list_fmap _ _ ?f rest) with (f <$> rest). rewrite IH.
  f_equal. unfold announce. by destruct (revision sourcestamp).
Qed.

(** X14.  The error lines of the delivery loop.  There is at most one
    per sourcestamp, and a response body is read only for an attempt
    that is logged as an error.  When the endpoint answers 200 to every
    request, no error is logged and no body is read.  When it never
    answers 200 (it raises, or answers with another code), exactly one
    error is logged per sourcestamp. *)
Theorem dispatch_error_lines env self postData stamps tr :
  exists added,
    dispatch env self postData stamps tr = (Ok tt, tr ++ added) /\
    (length (contents added) <= length (errors added) <= length stamps)%nat /\
    ((forall t ep d,
        exists response, http_post env t ep d = Ok response /\
                         code response = 200) ->
     errors added = [] /\ contents added = []) /\
    ((forall t ep d response,
        http_post env t ep d = Ok response -> code response <> 200) ->
     length (errors added) = length stamps).
Proof.
  destruct (for_each_log env self postData stamps tr)
    as (added & Hrun & _ & _ & _ & Hbound & Hok & Hfail).
  by exists added.
Qed.

(** Two instances: an endpoint that always answers 200, and one that
    always answers 503, for the two sample sourcestamps. *)
Lemma dispatch_error_lines_witness :
  (exists added,
     dispatch Sample.env Sample.self ∅
              [Sample.main_stamp; Sample.bare_stamp] [] = (Ok tt, added) /\
     errors added = [] /\ contents added = []) /\
  (exists added,
     dispatch Faulty.env_unavailable Sample.self ∅
              [Sample.main_stamp; Sample.bare_stamp] [] = (Ok tt, added) /\
     length (errors added) = 2%nat).
Proof.
  split.
  - destruct (dispatch_error_lines Sample.env Sample.self ∅
                [Sample.main_stamp; Sample.bare_stamp] [])
      as (added & Hrun & _ & Hok & _).
    exists added. split; [exact Hrun |].
    apply Hok. intros t ep d. by exists Sample.ok_response.
  - destruct (dispatch_error_lines Faulty.env_unavailable Sample.self ∅
                [Sample.main_stamp; Sample.bare_stamp] [])
      as (added & Hrun & _ & _ & Hfail).
    exists added. split; [exact Hrun |].
    apply Hfail. intros t ep d response Hr. injection Hr as <-. cbn. lia.
Defined.

(** ** When delivery is reached *)

Lemma dispatch_after_assembly env self build rest more tr build' postData tr1 :
  getBuildDetailsAndSendMessage env self build tr = (Ok (build', postData), tr1) ->
  exists added,
    sendMessage env self ({| builds := build :: rest |} :: more) tr
      = (Ok tt, tr1 ++ added) /\
    posts added
      = (fun _ => (post_target self, postData)) <$> sourcestamps (buildset build') /\
    lookups added = [] /\
    enrichments added = [].
Proof.
  intros Hrun.
  destruct (for_each_post_attempt env self postData
              (sourcestamps (buildset build')) tr1) as (added & Hloop & Hposts).
  destruct (for_each_log env self postData
              (sourcestamps (buildset build')) tr1)
    as (added' & Hloop' & _ & Hlook & Henr & _).
  rewrite Hloop in Hloop'. injection Hloop' as Heq.
  apply app_inv_head in Heq as <-.
  exists added. split; [| by repeat split].
  rewrite sendMessage_first, (bind_Ok _ _ _ _ _ Hrun). cbn [fst snd].
  destruct (assembly_inv _ _ _ _ _ _ _ Hrun) as (_ & text & base & -> & _).
  by rewrite assembled_not_empty.
Qed.

Lemma getAttachments_total env build tr :
  (sub_build build = true \/
   forall t, exists users,
     getResponsibleUsersForBuild env t (buildid build) = Ok users) ->
  exists atts tr', getAttachments env build tr = (Ok atts, tr').
Proof.
  intros [Hsub | Hlook].
  - destruct (getAttachments_loop_sub_build env build
                (sourcestamps (buildset build)) [] tr Hsub) as (atts & Hrun & _).
    by exists atts, tr.
  - destruct (sub_build build) eqn:Hsub.
    + destruct (getAttachments_loop_sub_build env build
                  (sourcestamps (buildset build)) [] tr Hsub)
        as (atts & Hrun & _).
      by exists atts, tr.
    + by apply getAttachments_loop_total.
Qed.

(** X15.  With the attachments display disabled, or for a sub-build,
    the responsible-users lookup plays no part: as soon as the
    enrichment call succeeds, [sendMessage] returns normally after one
    POST attempt per sourcestamp, and the only calls it has made are the
    enrichment call and the attempts. *)
Theorem delivery_without_lookups env self build rest more tr build' :
  getDetailsForBuild env tr build = Ok build' ->
  attachments self = false \/ sub_build build' = true ->
  exists added,
    sendMessage env self ({| builds := build :: rest |} :: more) tr
      = (Ok tt, tr ++ CallGetDetails build :: added) /\
    length (posts added) = length (sourcestamps (buildset build')) /\
    lookups added = [] /\
    enrichments added = [].
Proof.
  intros Hdetails Hcase.
  assert (exists postData,
            getBuildDetailsAndSendMessage env self build tr
              = (Ok (build', postData), tr ++ [CallGetDetails build]))
    as (postData & Hrun).
  { destruct (attachments self) eqn:Hflag.
    - destruct Hcase as [Hoff | Hsub]; [discriminate Hoff |].
      destruct (getAttachments_loop_sub_build env build'
                  (sourcestamps (buildset build')) []
                  (tr ++ [CallGetDetails build]) Hsub) as (atts & Hatts & _).
      eexists. by eapply assembly_with_attachments.
    - eexists. by apply assembly_without_attachments. }
  destruct (dispatch_after_assembly env self build rest more tr build'
              postData _ Hrun) as (added & Hsend & Hposts & Hlook & Henr).
  exists added. split; [by rewrite Hsend, <- app_assoc |].
  split; [by rewrite Hposts, length_fmap | by split].
Qed.

(** Two instances: the display is off, and the build is a child; in
    both the lookup would fail on its second call. *)
Lemma delivery_without_lookups_witness :
  (exists added,
     sendMessage Faulty.env_second_lookup Faulty.self_no_attachments
                 [ {| builds := [Sample.two_stamps] |} ] []
       = (Ok tt, CallGetDetails Sample.two_stamps :: added) /\
     length (posts added) = 2%nat /\ lookups added = []) /\
  (exists added,
     sendMessage Faulty.env_second_lookup Sample.self
                 [ {| builds := [Sample.child] |} ] []
       = (Ok tt, CallGetDetails Sample.child :: added) /\
     length (posts added) = 1%nat /\ lookups added = []).
Proof.
  split.
  - destruct (delivery_without_lookups Faulty.env_second_lookup
                Faulty.self_no_attachments Sample.two_stamps [] [] []
                Sample.two_stamps eq_refl (or_introl eq_refl))
      as (added & Hrun & Hposts & Hlook & _).
    exists added. split; [exact Hrun |]. split; [exact Hposts | exact Hlook].
  - destruct (delivery_without_lookups Faulty.env_second_lookup
                Sample.self Sample.child [] [] []
                Sample.child eq_refl (or_intror eq_refl))
      as (added & Hrun & Hposts & Hlook & _).
    exists added. split; [exact Hrun |]. split; [exact Hposts | exact Hlook].
Defined.

(** X16.  [sendMessage] returns normally, whatever the endpoint does,
    whenever the reports have a first build, the enrichment call
    succeeds and the responsible-users lookup does not raise.  It has
    then made one enrichment call and one POST attempt per sourcestamp
    of the enriched build, all after the last lookup. *)
Theorem sendMessage_returns env self build rest more tr build' :
  getDetailsForBuild env tr build = Ok build' ->
  (forall t, exists users,
     getResponsibleUsersForBuild env t (buildid build') = Ok users) ->
  exists postData looked added,
    getBuildDetailsAndSendMessage env self build tr
      = (Ok (build', postData), tr ++ CallGetDetails build :: looked) /\
    sendMessage env self ({| builds := build :: rest |} :: more) tr
      = (Ok tt, tr ++ CallGetDetails build :: looked ++ added) /\
    posts looked = [] /\
    posts added
      = (fun _ => (post_target self, postData)) <$> sourcestamps (buildset build') /\
    lookups added = [] /\
    enrichments (looked ++ added) = [].
Proof.
  intros Hdetails Hlook.
  assert (exists postData tr1,
            getBuildDetailsAndSendMessage env self build tr
              = (Ok (build', postData), tr1)) as (postData & tr1 & Hrun).
  { destruct (attachments self) eqn:Hflag.
    - destruct (getAttachments_total env build' (tr ++ [CallGetDetails build])
                  (or_intror Hlook)) as (atts & tr1 & Hatts).
      eexists _, _. by eapply assembly_with_attachments.
    - eexists _, _. by apply assembly_without_attachments. }
  pose proof (assembly_trace env self build tr build' postData tr1 Hrun)
    as Htr1.
  destruct (dispatch_after_assembly env self build rest more tr build'
              postData tr1 Hrun) as (added & Hsend & Hposts & Hnolook & Henr).
  eexists postData, _, added. split; [by rewrite <- Htr1 |].
  split; [by rewrite Hsend, Htr1, <- app_assoc |].
  split; [apply posts_replicate_lookups |]. split; [exact Hposts |].
  split; [exact Hnolook |].
  rewrite enrichments_app, Henr, app_nil_r.
  generalize (if attachments self && negb (sub_build build')
              then length (sourcestamps (buildset build')) else 0%nat).
  intros n. induction n as [| n IH]; [done | exact IH].
Qed.

(** An instance: the two-sourcestamp build against an endpoint that
    answers 500 to the first request. *)
Lemma sendMessage_returns_witness :
  exists postData looked added,
    getBuildDetailsAndSendMessage Sample.env_first_fails Sample.self
                                  Sample.two_stamps []
      = (Ok (Sample.two_stamps, postData),
         [] ++ CallGetDetails Sample.two_stamps :: looked) /\
    sendMessage Sample.env_first_fails Sample.self
                [ {| builds := [Sample.two_stamps] |} ] []
      = (Ok tt, [] ++ CallGetDetails Sample.two_stamps :: looked ++ added) /\
    posts looked = [] /\
    posts added
      = (fun _ => (post_target Sample.self, postData))
          <$> sourcestamps (buildset Sample.two_stamps) /\
    lookups added = [] /\
    enrichments (looked ++ added) = [].
Proof.
  apply (sendMessage_returns Sample.env_first_fails Sample.self
           Sample.two_stamps [] [] [] Sample.two_stamps eq_refl).
  intros t. exists ["ann"; "bob"]%string. reflexivity.
Defined.

(** ** Telling the two messages apart *)

(** X17.  The message of a started build is never the message of a
    finished build, whatever the builder names and the result are: the
    two differ at their tenth character. *)
Theorem started_and_finished_differ b1 b2 :
  complete b1 = false ->
  complete b2 = true ->
  getMessage b1 <> getMessage b2.
Proof.
  intros H1 H2.
  rewrite (getMessage_started b1 H1), (getMessage_finished b2 H2).
  generalize (name (builder b1)).
  generalize (name (builder b2) +:+ " with result: "
                +:+ statusToString (results b2)).
  intros s2 s1 H.
  change ("Buildbot " +:+ ("started build " +:+ s1)
          = "Buildbot " +:+ ("finished build " +:+ s2)) in H.
  apply (inj (String.append "Buildbot ")) in H.
  cbv [String.append] in H. discriminate H.
Qed.

(** An instance: the sample build, running and finished. *)
Lemma started_and_finished_differ_witness :
  getMessage Sample.running <> getMessage Sample.build.
Proof.
  apply (started_and_finished_differ Sample.running Sample.build);
    reflexivity.
Defined.
